(** * Google Calendar MCP bridge: server.py and client.py

    A shallow embedding of the two Python modules of the repository and the
    properties of their behaviour.  The third-party pieces the code calls
    (FastMCP, the Google API client, the OpenAI SDK, the disk store) are
    taken as external operations on an abstract world; the code of the
    repository itself is translated statement by statement. *)

From Stdlib Require Import String Ascii List ZArith Bool Lia DecimalString.
Import ListNotations.
Open Scope string_scope.
Set Warnings "-register-all".

(** ** Python values, exceptions and the few runtime operations used *)

Module Py.

(** Exception classes that occur in the two modules.  [KeyboardInterrupt]
    and [OtherBaseException] derive from BaseException only, every other
    class derives from Exception. *)
Inductive exn_class : Type :=
| ToolError | ValueError | AttributeError | KeyError | TypeError
| IndexError | RuntimeError | UnboundLocalError | EOFError
| JSONDecodeError | ClientNotFoundError
| OtherException (name : string)
| KeyboardInterrupt
| OtherBaseException (name : string).

(** An exception object: its class and the text [str(e)] renders. *)
Record exn : Type := Exn { exn_type : exn_class; exn_str : string }.

(** [isinstance(e, Exception)], what [except Exception] tests. *)
Definition is_Exception (e : exn) : bool :=
  match exn_type e with
  | KeyboardInterrupt | OtherBaseException _ => false
  | _ => true
  end.

Definition is_ToolError (e : exn) : bool :=
  match exn_type e with ToolError => true | _ => false end.

Definition is_ValueError (e : exn) : bool :=
  match exn_type e with ValueError | JSONDecodeError => true | _ => false end.

Definition is_ClientNotFoundError (e : exn) : bool :=
  match exn_type e with ClientNotFoundError => true | _ => false end.

Definition is_KeyboardInterrupt (e : exn) : bool :=
  match exn_type e with KeyboardInterrupt => true | _ => false end.

(** The outcome of an expression or statement: a value or a raised
    exception. *)
Inductive result (A : Type) : Type :=
| Ok (a : A)
| Raise (e : exn).
Arguments Ok {A} a.
Arguments Raise {A} e.

Definition raises {A : Type} (r : result A) : bool :=
  match r with Ok _ => false | Raise _ => true end.

(** Sequencing: the first exception raised ends the evaluation. *)
Definition and_then {A B : Type} (r : result A) (k : A -> result B) : result B :=
  match r with Ok a => k a | Raise e => Raise e end.

(** Dynamically typed values: JSON-like data and plain objects, an object
    being its class name and its attributes. *)
Inductive pyval : Type :=
| VNone
| VBool (b : bool)
| VInt (z : Z)
| VStr (s : string)
| VList (l : list pyval)
| VDict (d : list (string * pyval))
| VObj (cls : string) (attrs : list (string * pyval)).

Definition type_name (v : pyval) : string :=
  match v with
  | VNone => "NoneType"
  | VBool _ => "bool"
  | VInt _ => "int"
  | VStr _ => "str"
  | VList _ => "list"
  | VDict _ => "dict"
  | VObj cls _ => cls
  end.

(** Truth value testing: [None], [False], zero and empty containers are
    false; an object is true. *)
Definition truthy (v : pyval) : bool :=
  match v with
  | VNone => false
  | VBool b => b
  | VInt z => negb (z =? 0)%Z
  | VStr s => negb (s =? "")
  | VList l => match l with [] => false | _ => true end
  | VDict d => match d with [] => false | _ => true end
  | VObj _ _ => true
  end.

(** Lookup in a string-keyed mapping (a dict, an attribute table,
    os.environ). *)
Fixpoint lookup {A : Type} (k : string) (m : list (string * A)) : option A :=
  match m with
  | [] => None
  | (k', v) :: m' => if k' =? k then Some v else lookup k m'
  end.

(** [d.get(k, default)] on a dict. *)
Definition dict_get (d : list (string * pyval)) (k : string) (default : pyval)
  : pyval :=
  match lookup k d with Some v => v | None => default end.

Definition no_attribute (v : pyval) (name : string) : exn :=
  Exn AttributeError
      ("'" ++ type_name v ++ "' object has no attribute '" ++ name ++ "'").

(** [hasattr(v, name)] and [v.name], for the attribute names the modules
    use (none of them is an attribute of a built-in value). *)
Definition hasattr (v : pyval) (name : string) : bool :=
  match v with
  | VObj _ attrs => match lookup name attrs with Some _ => true | None => false end
  | _ => false
  end.

Definition getattr (v : pyval) (name : string) : result pyval :=
  match v with
  | VObj _ attrs =>
      match lookup name attrs with
      | Some a => Ok a
      | None => Raise (no_attribute v name)
      end
  | _ => Raise (no_attribute v name)
  end.

(** [getattr(v, name, default)]. *)
Definition getattr_default (v : pyval) (name : string) (default : pyval) : pyval :=
  match getattr v name with Ok a => a | Raise _ => default end.

(** [v.get(k, default)]: only a dict has the method. *)
Definition method_get (v : pyval) (k : string) (default : pyval) : result pyval :=
  match v with
  | VDict d => Ok (dict_get d k default)
  | _ => Raise (no_attribute v "get")
  end.

(** [v[k]] with a string key (messages as of CPython 3.11). *)
Definition subscript (v : pyval) (k : string) : result pyval :=
  match v with
  | VDict d =>
      match lookup k d with
      | Some a => Ok a
      | None => Raise (Exn KeyError ("'" ++ k ++ "'"))
      end
  | VStr _ => Raise (Exn TypeError "string indices must be integers, not 'str'")
  | VList _ => Raise (Exn TypeError "list indices must be integers or slices, not str")
  | _ => Raise (Exn TypeError ("'" ++ type_name v ++ "' object is not subscriptable"))
  end.

(** The items a [for] loop draws from a value. *)
Definition iterate (v : pyval) : result (list pyval) :=
  match v with
  | VList l => Ok l
  | VDict d => Ok (map (fun kv => VStr (fst kv)) d)
  | VStr s => Ok (map (fun c => VStr (String c "")) (list_ascii_of_string s))
  | _ => Raise (Exn TypeError ("'" ++ type_name v ++ "' object is not iterable"))
  end.

Definition string_of_Z (z : Z) : string := NilZero.string_of_int (Z.to_int z).

(** What the interpreter is left to decide: the [repr] text of a value
    (used by [str] on containers and objects and inside messages), and
    [int] on a text that is not a plain run of ASCII digits. *)
Record Runtime : Type := {
  py_repr : pyval -> string;
  int_other : string -> option Z
}.

(** [str(v)], and so [f"{v}"]. *)
Definition py_str (rt : Runtime) (v : pyval) : string :=
  match v with
  | VNone => "None"
  | VBool true => "True"
  | VBool false => "False"
  | VInt z => string_of_Z z
  | VStr s => s
  | _ => py_repr rt v
  end.

Definition is_digit (c : ascii) : bool :=
  let n := nat_of_ascii c in (48 <=? n)%nat && (n <=? 57)%nat.

Fixpoint digits_value (acc : Z) (s : string) : option Z :=
  match s with
  | EmptyString => Some acc
  | String c s' =>
      if is_digit c
      then digits_value (10 * acc + Z.of_nat (nat_of_ascii c - 48)) s'
      else None
  end.

(** [int(s)] on a string: a ValueError when the text is no integer
    literal. *)
Definition py_int (rt : Runtime) (s : string) : result Z :=
  let plain := match s with EmptyString => None | _ => digits_value 0 s end in
  match plain with
  | Some z => Ok z
  | None =>
      match int_other rt s with
      | Some z => Ok z
      | None =>
          Raise (Exn ValueError
                     ("invalid literal for int() with base 10: "
                        ++ py_repr rt (VStr s)))
      end
  end.

(** [s.startswith(p)]. *)
Fixpoint startswith (p s : string) : bool :=
  match p, s with
  | EmptyString, _ => true
  | String a p', String b s' => Ascii.eqb a b && startswith p' s'
  | String _ _, EmptyString => false
  end.

(** [s.replace(old, new)] for a non-empty [old]: every occurrence, left to
    right, without overlap.  [skip] counts the characters of a matched
    occurrence still to drop. *)
Fixpoint replace_from (old new : string) (skip : nat) (s : string) : string :=
  match s with
  | EmptyString => EmptyString
  | String c s' =>
      match skip with
      | S k => replace_from old new k s'
      | O =>
          if startswith old s
          then new ++ replace_from old new (String.length old - 1) s'
          else String c (replace_from old new 0 s')
      end
  end.

Definition replace (old new s : string) : string := replace_from old new 0 s.

Definition newline : string := String (ascii_of_nat 10) EmptyString.

(** [sep.join(parts)]. *)
Fixpoint join (sep : string) (parts : list string) : string :=
  match parts with
  | [] => ""
  | [p] => p
  | p :: rest => p ++ sep ++ join sep rest
  end.

(** [os.environ], after [load_dotenv()] has merged the .env file. *)
Definition environ : Type := list (string * string).

(** [os.environ.get(k)] as a value: the text or [None]. *)
Definition environ_get (env : environ) (k : string) : pyval :=
  match lookup k env with Some s => VStr s | None => VNone end.

(** [os.environ.get(k, default)]. *)
Definition environ_get_default (env : environ) (k default : string) : string :=
  match lookup k env with Some s => s | None => default end.

(** The text of a value known to be a string. *)
Definition text_of (v : pyval) : string :=
  match v with VStr s => s | _ => "" end.

(** [all(xs)]. *)
Definition py_all (xs : list pyval) : bool := forallb truthy xs.

End Py.

Import Py.

(** ** server.py *)

Module Server.

(** google.oauth2.credentials.Credentials, with the fields the code or its
    defaults set. *)
Record Credentials : Type := mkCredentials {
  token : pyval;
  refresh_token : pyval;
  token_uri : pyval;
  client_id : pyval;
  client_secret : pyval;
  scopes : pyval
}.

(** The call [Credentials(token=, token_uri=, client_id=, client_secret=,
    scopes=)]: an argument the call leaves out keeps its default [None]. *)
Definition Credentials_init (token token_uri client_id client_secret scopes : pyval)
  : Credentials :=
  mkCredentials token VNone token_uri client_id client_secret scopes.

(** fastmcp.Context as far as the module reads it: [request_context] is a
    value or [None], [session_id] is a property and may raise. *)
Record Context : Type := {
  request_context : pyval;
  session_id : result string
}.

(** The keyword arguments of [service.events().list(...)]. *)
Record ListParams : Type := {
  calendarId : string;
  timeMin : pyval;
  maxResults : pyval;
  singleEvents : bool;
  orderBy : string
}.

Record RedisStore : Type := {
  redis_host : string;
  redis_port : Z;
  redis_db : Z
}.

(** The keyword arguments of [GoogleProvider(...)]. *)
Record ProviderArgs : Type := {
  pa_client_id : string;
  pa_client_secret : string;
  pa_base_url : string;
  pa_client_storage : RedisStore;
  pa_required_scopes : list string;
  pa_extra_authorize_params : list (string * string)
}.

(** The third-party operations the module calls. *)
Record Externals : Type := {
  World : Type;
  Service : Type;
  runtime : Runtime;
  GoogleProvider : ProviderArgs -> pyval;
  get_context : World -> result Context * World;
  build : string -> string -> Credentials -> bool -> World -> result Service * World;
  utcnow_isoformat : World -> string * World;
  events_list_execute : Service -> ListParams -> World -> result pyval * World;
  events_insert_execute : Service -> string -> pyval -> World -> result pyval * World
}.

(** The calls that leave the process, with their arguments. *)
Inductive event : Type :=
| EvBuild (api version : string) (creds : Credentials) (cache_discovery : bool)
| EvEventsList (p : ListParams)
| EvEventsInsert (calendar : string) (body : pyval).

(** What a tool hands back: a list of content blocks. *)
Record ToolResult : Type := { content : list pyval }.

Definition text_result (text : string) : ToolResult :=
  {| content := [VDict [("type", VStr "text"); ("text", VStr text)]] |}.

(** The validated module-level configuration. *)
Record Config : Type := {
  GOOGLE_CLIENT_ID : string;
  GOOGLE_CLIENT_SECRET : string;
  HOST : string;
  PORT : Z;
  SERVER_URL : string;
  REDIS_HOST : string;
  REDIS_PORT : Z;
  REDIS_DB : Z
}.

Definition calendar_events_scope : string :=
  "https://www.googleapis.com/auth/calendar.events".

Definition missing_env_message : string :=
  "Missing required env variables: GOOGLE_CLIENT_ID or GOOGLE_CLIENT_SECRET.".

(** Lines 35-49: read the environment, convert the numbers, then check
    the two required variables. *)
Definition load_config (rt : Runtime) (env : environ) : result Config :=
  let client_id := environ_get env "GOOGLE_CLIENT_ID" in
  let client_secret := environ_get env "GOOGLE_CLIENT_SECRET" in
  let host := environ_get_default env "HOST" "0.0.0.0" in
  match py_int rt (environ_get_default env "PORT" "8000") with
  | Raise e => Raise e
  | Ok port =>
      let server_url := environ_get_default env "SERVER_URL" "http://localhost:8000" in
      let rhost := environ_get_default env "REDIS_HOST" "localhost" in
      match py_int rt (environ_get_default env "REDIS_PORT" "6379") with
      | Raise e => Raise e
      | Ok rport =>
          match py_int rt (environ_get_default env "REDIS_DB" "0") with
          | Raise e => Raise e
          | Ok rdb =>
              if negb (py_all [client_id; client_secret])
              then Raise (Exn ValueError missing_env_message)
              else Ok {| GOOGLE_CLIENT_ID := text_of client_id;
                         GOOGLE_CLIENT_SECRET := text_of client_secret;
                         HOST := host;
                         PORT := port;
                         SERVER_URL := server_url;
                         REDIS_HOST := rhost;
                         REDIS_PORT := rport;
                         REDIS_DB := rdb |}
          end
      end
  end.

Section WithExternals.

Variable E : Externals.

(** The state a request runs in: the outside world and the calls made
    so far. *)
Definition St : Type := (World E * list event)%type.

(** Computations that read and change the state and may raise. *)
Definition M (A : Type) : Type := St -> result A * St.

Definition ret {A : Type} (a : A) : M A := fun st => (Ok a, st).

Definition raise {A : Type} (e : exn) : M A := fun st => (Raise e, st).

Definition bind {A B : Type} (m : M A) (k : A -> M B) : M B :=
  fun st =>
    match m st with
    | (Ok a, st') => k a st'
    | (Raise e, st') => (Raise e, st')
    end.

Definition lift {A : Type} (r : result A) : M A := fun st => (r, st).

(** [try: m  except Exception as e: h e]. *)
Definition try_except {A : Type} (m : M A) (h : exn -> M A) : M A :=
  fun st =>
    match m st with
    | (Ok a, st') => (Ok a, st')
    | (Raise e, st') => if is_Exception e then h e st' else (Raise e, st')
    end.

(** [try: x = m; k x  except Exception as e: h x e], where the handler
    reads the local [x]: it is unassigned when [m] itself raised.  An
    exception the handler raises is not handled again. *)
Definition try_except_binding {A B : Type} (m : M A) (k : A -> M B)
           (h : option A -> exn -> M B) : M B :=
  fun st =>
    match m st with
    | (Ok a, st') => try_except (k a) (h (Some a)) st'
    | (Raise e, st') => if is_Exception e then h None e st' else (Raise e, st')
    end.

(** An external call, recorded with its arguments. *)
Definition external {A : Type} (ev : option event)
           (f : World E -> result A * World E) : M A :=
  fun st =>
    let (r, w) := f (fst st) in
    (r, (w, (snd st ++ match ev with Some x => [x] | None => [] end)%list)).

Local Notation "x <- m ;; k" := (bind m (fun x => k))
  (at level 61, m at next level, right associativity).

(** [Tool]: its three class attributes and its [run] method. *)
Record Tool : Type := {
  name : string;
  description : string;
  parameters : pyval;
  run : list (string * pyval) -> M ToolResult
}.

Section WithGlobals.

(** The module-level names the functions read. *)
Variable cfg : Config.
Variable auth_provider : pyval.

(** The access token as lines 105-109 find it on the user object. *)
Definition extract_access_token (token_info : pyval) : M pyval :=
  let nested :=
    hasattr token_info "access_token"
    && match getattr token_info "access_token" with
       | Ok at_ => hasattr at_ "token"
       | Raise _ => false
       end in
  if nested
  then at_ <- lift (getattr token_info "access_token") ;;
       lift (getattr at_ "token")
  else ret (getattr_default token_info "token" VNone).

Definition provider_scopes : pyval :=
  if hasattr auth_provider "scopes"
  then getattr_default auth_provider "scopes" VNone
  else VList [VStr calendar_events_scope].

Definition get_calendar_service (ctx : Context) : M (Service E) :=
  try_except
    (let req_ctx := request_context ctx in
     if negb (truthy req_ctx)
     then raise (Exn ToolError "No active request context found.")
     else
       request_obj <- lift (getattr req_ctx "request") ;;
       rejected <-
         (if negb (hasattr request_obj "user")
          then ret true
          else user <- lift (getattr request_obj "user") ;;
               authenticated <- lift (getattr user "is_authenticated") ;;
               ret (negb (truthy authenticated))) ;;
       if (rejected : bool)
       then raise (Exn ToolError "No active authentication found. Please log in.")
       else
         token_info <- lift (getattr request_obj "user") ;;
         access_token <- extract_access_token token_info ;;
         if negb (truthy access_token)
         then raise (Exn ToolError
                          "Could not retrieve access token from user context.")
         else
           let creds :=
             Credentials_init access_token
               (VStr "https://oauth2.googleapis.com/token")
               (VStr (GOOGLE_CLIENT_ID cfg))
               (VStr (GOOGLE_CLIENT_SECRET cfg))
               provider_scopes in
           external (Some (EvBuild "calendar" "v3" creds false))
                    (build E "calendar" "v3" creds false))
    (fun e =>
       raise (Exn ToolError ("System Authorization Failure: " ++ exn_str e))).

(** One pass of the loop body of lines 176-180: the line for one
    event. *)
Definition event_line (event : pyval) : result string :=
  and_then (subscript event "start") (fun start_entry =>
  and_then (method_get start_entry "date" VNone) (fun date =>
  and_then (method_get start_entry "dateTime" date) (fun start =>
  and_then (method_get event "summary" (VStr "No Title")) (fun summary =>
  Ok ("- " ++ py_str (runtime E) start ++ ": "
           ++ py_str (runtime E) summary))))).

(** The [for event in events] loop, appending to [result_lines]. *)
Fixpoint format_events (events : list pyval) (result_lines : list string)
  : result (list string) :=
  match events with
  | [] => Ok result_lines
  | event :: rest =>
      and_then (event_line event) (fun line =>
      format_events rest (result_lines ++ [line])%list)
  end.

Definition utc_now : M string :=
  external None (fun w => let (s, w') := utcnow_isoformat E w in (Ok s, w')).

(** Lines 150-168: the arguments, the service and the query. *)
Definition query_events (arguments : list (string * pyval)) : M pyval :=
  let max_results := dict_get arguments "max_results" (VInt 10) in
  let time_min := dict_get arguments "time_min" VNone in
  ctx <- external None (get_context E) ;;
  service <- get_calendar_service ctx ;;
  iso <- utc_now ;;
  let now := replace "+00:00" "Z" iso in
  let t_min := if truthy time_min then time_min else VStr now in
  _ <- lift (session_id ctx) ;;
  let p := {| calendarId := "primary";
              timeMin := t_min;
              maxResults := max_results;
              singleEvents := true;
              orderBy := "startTime" |} in
  external (Some (EvEventsList p)) (events_list_execute E service p).

(** Lines 170-182: the answer for what the API returned. *)
Definition render_events (events_result : pyval) : result ToolResult :=
  and_then (method_get events_result "items" (VList [])) (fun events =>
  if negb (truthy events)
  then Ok (text_result "No upcoming events found.")
  else
    and_then (iterate events) (fun items =>
    and_then (format_events items ["Upcoming events:"]) (fun result_lines =>
    Ok (text_result (join newline result_lines))))).

Definition ListUpcomingEvents_run (arguments : list (string * pyval))
  : M ToolResult :=
  try_except
    (events_result <- query_events arguments ;;
     lift (render_events events_result))
    (fun e =>
       ret (text_result ("Google Calendar API Error: " ++ exn_str e))).

(** Reading a local variable that may not have been assigned yet. *)
Definition local {A : Type} (var : string) (v : option A) : M A :=
  match v with
  | Some a => ret a
  | None =>
      raise (Exn UnboundLocalError
                 ("cannot access local variable '" ++ var
                    ++ "' where it is not associated with a value"))
  end.

(** The handler of lines 224-227; [ctx] is the local variable as the
    [try] block left it. *)
Definition CreateEvent_handler (ctx : option Context) (e : exn) : M ToolResult :=
  c <- local "ctx" ctx ;;
  _ <- lift (session_id c) ;;
  ret (text_result ("Failed to create event: " ++ exn_str e)).

Definition CreateEvent_run (arguments : list (string * pyval)) : M ToolResult :=
  let summary := dict_get arguments "summary" VNone in
  let start_time := dict_get arguments "start_time" VNone in
  let end_time := dict_get arguments "end_time" VNone in
  let description_ := dict_get arguments "description" (VStr "") in
  try_except_binding
    (external None (get_context E))
    (fun ctx =>
        service <- get_calendar_service ctx ;;
        let event_body :=
          VDict [("summary", summary);
                 ("description", description_);
                 ("start", VDict [("dateTime", start_time);
                                  ("timeZone", VStr "UTC")]);
                 ("end", VDict [("dateTime", end_time);
                                ("timeZone", VStr "UTC")])] in
        created <- external (Some (EvEventsInsert "primary" event_body))
                            (events_insert_execute E service "primary" event_body) ;;
        link <- lift (method_get created "htmlLink" VNone) ;;
        ret (text_result ("Event created successfully. Link: "
                            ++ py_str (runtime E) link)))
    CreateEvent_handler.

End WithGlobals.

Definition string_property (text : string) : pyval :=
  VDict [("type", VStr "string"); ("description", VStr text)].

(** [class ListUpcomingEvents(Tool)]. *)
Definition ListUpcomingEvents (cfg : Config) (auth_provider : pyval) : Tool :=
  {| name := "list_upcoming_events";
     description := "List upcoming events from the primary calendar.";
     parameters :=
       VDict [("type", VStr "object");
              ("description", VStr "Get upcoming calendar events");
              ("properties",
               VDict [("max_results",
                       VDict [("type", VStr "integer");
                              ("description",
                               VStr "Max events to return. Default 10.")]);
                      ("time_min",
                       string_property
                         "Start time in ISO format (YYYY-MM-DDTHH:MM:SSZ). Defaults to now.")]);
              ("additionalProperties", VBool true)];
     run := ListUpcomingEvents_run cfg auth_provider |}.

(** [class CreateEvent(Tool)]. *)
Definition CreateEvent (cfg : Config) (auth_provider : pyval) : Tool :=
  {| name := "create_event";
     description := "Create a new event in the primary calendar.";
     parameters :=
       VDict [("type", VStr "object");
              ("description", VStr "Create a calendar event");
              ("required",
               VList [VStr "summary"; VStr "start_time"; VStr "end_time"]);
              ("properties",
               VDict [("summary", string_property "The title of the event.");
                      ("start_time",
                       string_property
                         "Start time in ISO 8601 format (e.g., 2024-12-31T10:00:00Z).");
                      ("end_time", string_property "End time in ISO 8601 format.");
                      ("description",
                       VDict [("type", VStr "string");
                              ("description", VStr "Description/body of the event.");
                              ("default", VStr "")])]);
              ("additionalProperties", VBool true)];
     run := CreateEvent_run cfg auth_provider |}.

(** The server object: its settings and the tools registered on it, in
    registration order. *)
Record FastMCP : Type := {
  server_name : string;
  instructions : string;
  auth : pyval;
  tools : list Tool
}.

Definition FastMCP_init (server_name instructions : string) (auth : pyval)
  : FastMCP :=
  {| server_name := server_name;
     instructions := instructions;
     auth := auth;
     tools := [] |}.

(** Tools are kept by name: a tool registered under a name already taken
    replaces the earlier one. *)
Fixpoint put_tool (t : Tool) (ts : list Tool) : list Tool :=
  match ts with
  | [] => [t]
  | t' :: rest => if name t' =? name t then t :: rest else t' :: put_tool t rest
  end.

Definition add_tool (t : Tool) (mcp : FastMCP) : FastMCP :=
  {| server_name := server_name mcp;
     instructions := instructions mcp;
     auth := auth mcp;
     tools := put_tool t (tools mcp) |}.

(** The names the module has bound once it is loaded. *)
Record Module_ : Type := {
  config : Config;
  secure_store : RedisStore;
  auth_provider : pyval;
  mcp : FastMCP
}.

(** The module body, top to bottom: configuration, storage, provider,
    server and the two registrations of lines 231-232. *)
Definition server_module (env : environ) : result Module_ :=
  and_then (load_config (runtime E) env) (fun cfg =>
  let secure_store :=
    {| redis_host := REDIS_HOST cfg;
       redis_port := REDIS_PORT cfg;
       redis_db := REDIS_DB cfg |} in
  let auth_provider :=
    GoogleProvider E
      {| pa_client_id := GOOGLE_CLIENT_ID cfg;
         pa_client_secret := GOOGLE_CLIENT_SECRET cfg;
         pa_base_url := SERVER_URL cfg;
         pa_client_storage := secure_store;
         pa_required_scopes := [calendar_events_scope];
         pa_extra_authorize_params := [("access_type", "offline")] |} in
  let mcp :=
    FastMCP_init "Google Calendar Professional"
      "Enterprise-grade Google Calendar integration with persistent OAuth."
      auth_provider in
  let mcp := add_tool (ListUpcomingEvents cfg auth_provider) mcp in
  let mcp := add_tool (CreateEvent cfg auth_provider) mcp in
  Ok {| config := cfg;
        secure_store := secure_store;
        auth_provider := auth_provider;
        mcp := mcp |}).

End WithExternals.

End Server.

(** ** client.py *)

Module Client.

(** An MCP tool as [list_tools] returns it. *)
Record MCPTool : Type := {
  name : string;
  description : pyval;
  inputSchema : pyval
}.

(** The dict built for one tool by lines 30-37. *)
Definition openai_tool (tool : MCPTool) : pyval :=
  VDict [("type", VStr "function");
         ("function",
          VDict [("name", VStr (name tool));
                 ("description", description tool);
                 ("parameters", inputSchema tool)])].

(** The loop of lines 28-38: start from the empty list and append one
    dict per tool. *)
Definition convert_mcp_to_openai_tools (mcp_tools : list MCPTool) : list pyval :=
  fold_left (fun openai_tools tool => (openai_tools ++ [openai_tool tool])%list)
            mcp_tools [].

(** Line 65, the names shown once the tools are converted:
    [[t['function']['name'] for t in openai_tools]]. *)
Fixpoint discovered_names (openai_tools : list pyval) : result (list pyval) :=
  match openai_tools with
  | [] => Ok []
  | t :: rest =>
      and_then (subscript t "function") (fun f =>
      and_then (subscript f "name") (fun n =>
      and_then (discovered_names rest) (fun names =>
      Ok (n :: names))))
  end.

Definition default_server_url : string := "http://localhost:8000/sse".

(** The module-level configuration. *)
Record Config : Type := {
  OPENAI_API_KEY : string;
  MCP_SERVER_URL : string
}.

(** Lines 18-22. *)
Definition load_config (env : environ) : result Config :=
  let api_key := environ_get env "OPENAI_API_KEY" in
  let server_url := environ_get_default env "MCP_SERVER_URL" default_server_url in
  if negb (truthy api_key)
  then Raise (Exn ValueError "OPENAI_API_KEY not found in.env")
  else Ok {| OPENAI_API_KEY := text_of api_key;
             MCP_SERVER_URL := server_url |}.

(** One requested tool call of a completion. *)
Record ToolCall : Type := {
  id : string;
  function_name : string;
  function_arguments : string
}.

(** The message of a completion choice: [content] is a text or [None],
    [tool_calls] a list or [None]. *)
Record ChatCompletionMessage : Type := {
  content : pyval;
  tool_calls : option (list ToolCall)
}.

(** An element of the [messages] list: a dict literal or a message object
    put there as it was received. *)
Inductive message : Type :=
| Dict (d : list (string * pyval))
| Received (m : ChatCompletionMessage).

Definition user_message (user_input : string) : message :=
  Dict [("role", VStr "user"); ("content", VStr user_input)].

Definition tool_message (tool_call : ToolCall) (output : string) : message :=
  Dict [("tool_call_id", VStr (id tool_call));
        ("role", VStr "tool");
        ("name", VStr (function_name tool_call));
        ("content", VStr output)].

Definition assistant_message (final_text : pyval) : message :=
  Dict [("role", VStr "assistant"); ("content", final_text)].

(** A storage directory, as the path components joined by [/]. *)
Definition path : Type := list string.

(** The third-party and standard-library operations the module calls.
    [chat_completions_create] yields the messages of the choices, in
    order; a tool result is its list of content blocks.  The file-system
    calls are taken to succeed. *)
Record Externals : Type := {
  World : Type;
  DiskStore : Type;
  McpClient : Type;
  runtime : Runtime;
  json_loads : string -> result pyval;
  input : string -> World -> result string * World;
  chat_completions_create :
    string -> list message -> option (list pyval) -> option string ->
    World -> result (list ChatCompletionMessage) * World;
  DiskStore_init : path -> World -> result DiskStore * World;
  store_enter : DiskStore -> World -> result unit * World;
  store_exit : DiskStore -> World -> result unit * World;
  client_enter : string -> DiskStore -> World -> result McpClient * World;
  client_exit : McpClient -> World -> result unit * World;
  list_tools : McpClient -> World -> result (list MCPTool) * World;
  call_tool : McpClient -> string -> pyval -> World -> result (list pyval) * World;
  path_exists : path -> World -> bool;
  rmtree : path -> World -> World;
  mkdir : path -> World -> World
}.

(** The calls that leave the module, with their arguments. *)
Inductive event : Type :=
| EvMkdir (dir : path)
| EvRmtree (dir : path)
| EvDiskStore (dir : path)
| EvStoreEnter
| EvStoreExit
| EvClientEnter (url : string)
| EvClientExit
| EvListTools
| EvInput
| EvCompletion (model : string) (messages : list message)
               (tools : option (list pyval)) (tool_choice : option string)
| EvCallTool (name : string) (args : pyval).

(** ASCII lower-casing, which decides [user_input.lower() in ['quit',
    'exit']]. *)
Definition lower_char (c : ascii) : ascii :=
  let n := nat_of_ascii c in
  if (65 <=? n)%nat && (n <=? 90)%nat then ascii_of_nat (n + 32) else c.

Fixpoint lower (s : string) : string :=
  match s with
  | EmptyString => EmptyString
  | String c s' => String (lower_char c) (lower s')
  end.

Definition is_quit (user_input : string) : bool :=
  let l := lower user_input in (l =? "quit") || (l =? "exit").

Section WithExternals.

Variable E : Externals.

(** The state of a run: the outside world, the [messages] list and the
    calls made so far. *)
Record St : Type := {
  world : World E;
  messages : list message;
  trace : list event
}.

(** Computations that change the state and may raise; [None] when the
    step budget of the chat loop is used up. *)
Definition M (A : Type) : Type := St -> option (result A * St).

Definition ret {A : Type} (a : A) : M A := fun st => Some (Ok a, st).

Definition raise {A : Type} (e : exn) : M A := fun st => Some (Raise e, st).

Definition bind {A B : Type} (m : M A) (k : A -> M B) : M B :=
  fun st =>
    match m st with
    | Some (Ok a, st') => k a st'
    | Some (Raise e, st') => Some (Raise e, st')
    | None => None
    end.

Definition lift {A : Type} (r : result A) : M A := fun st => Some (r, st).

(** [try: m  except <class>: h e], the class given by a test. *)
Definition try_except {A : Type} (catches : exn -> bool) (m : M A)
           (h : exn -> M A) : M A :=
  fun st =>
    match m st with
    | Some (Ok a, st') => Some (Ok a, st')
    | Some (Raise e, st') => if catches e then h e st' else Some (Raise e, st')
    | None => None
    end.

(** An external call, recorded in the trace. *)
Definition external {A : Type} (ev : event)
           (f : World E -> result A * World E) : M A :=
  fun st =>
    let (r, w) := f (world st) in
    Some (r, {| world := w;
                messages := messages st;
                trace := (trace st ++ [ev])%list |}).

(** A file-system call. *)
Definition file_system (ev : event) (f : World E -> World E) : M unit :=
  external ev (fun w => (Ok tt, f w)).

(** [messages.append(m)]. *)
Definition append_message (m : message) : M unit :=
  fun st =>
    Some (Ok tt, {| world := world st;
                    messages := (messages st ++ [m])%list;
                    trace := trace st |}).

(** [messages = []]. *)
Definition reset_messages : M unit :=
  fun st =>
    Some (Ok tt, {| world := world st; messages := []; trace := trace st |}).

Definition get_messages : M (list message) :=
  fun st => Some (Ok (messages st), st).

(** [async with enter as x: body x]: the exit runs on every way out of
    the body; it does not swallow an exception, and one it raises takes
    the place of the body's outcome. *)
Definition async_with {R A : Type} (enter : M R) (exit : R -> M unit)
           (body : R -> M A) : M A :=
  fun st =>
    match enter st with
    | None => None
    | Some (Raise e, st1) => Some (Raise e, st1)
    | Some (Ok r, st1) =>
        match body r st1 with
        | None => None
        | Some (outcome, st2) =>
            match exit r st2 with
            | None => None
            | Some (Raise e', st3) => Some (Raise e', st3)
            | Some (Ok _, st3) => Some (outcome, st3)
            end
        end
    end.

Local Notation "x <- m ;; k" := (bind m (fun x => k))
  (at level 61, m at next level, right associativity).

(** [response.choices[0].message]. *)
Definition first_choice (choices : list ChatCompletionMessage)
  : result ChatCompletionMessage :=
  match choices with
  | m :: _ => Ok m
  | [] => Raise (Exn IndexError "list index out of range")
  end.

(** What a loop body or a [try] block does next. *)
Inductive flow : Type := Continue | Return.

Section Connected.

Variable mcp_client : McpClient E.
Variable openai_tools : list pyval.

(** Lines 98-103: run the tool and take the text of its first content
    block; any Exception becomes an error text. *)
Definition run_tool (name : string) (args : pyval) : M pyval :=
  try_except is_Exception
    (blocks <- external (EvCallTool name args)
                        (call_tool E mcp_client name args) ;;
     match blocks with
     | first :: _ => lift (getattr first "text")
     | [] => ret (VStr "Success")
     end)
    (fun e => ret (VStr ("Error: " ++ exn_str e))).

(** The [for tool_call in response_msg.tool_calls] loop of lines
    92-112. *)
Fixpoint execute_tool_calls (calls : list ToolCall) : M unit :=
  match calls with
  | [] => ret tt
  | tool_call :: rest =>
      let name := function_name tool_call in
      args <- lift (json_loads E (function_arguments tool_call)) ;;
      output <- run_tool name args ;;
      _ <- append_message
             (tool_message tool_call (py_str (runtime E) output)) ;;
      execute_tool_calls rest
  end.

Definition requested_calls (response_msg : ChatCompletionMessage)
  : list ToolCall :=
  match tool_calls response_msg with Some calls => calls | None => [] end.

Definition completion (tools : option (list pyval)) (tool_choice : option string)
  : M (list ChatCompletionMessage) :=
  msgs <- get_messages ;;
  external (EvCompletion "gpt-4o" msgs tools tool_choice)
           (chat_completions_create E "gpt-4o" msgs tools tool_choice).

(** One pass of the body of [while True], lines 71-128. *)
Definition chat_turn : M flow :=
  try_except (fun e => is_KeyboardInterrupt e || is_Exception e)
    (user_input <- external EvInput (input E (newline ++ "User: ")) ;;
     if is_quit user_input
     then ret Return
     else
       _ <- append_message (user_message user_input) ;;
       choices <- completion (Some openai_tools) (Some "auto") ;;
       response_msg <- lift (first_choice choices) ;;
       match requested_calls response_msg with
       | _ :: _ =>
           _ <- append_message (Received response_msg) ;;
           _ <- execute_tool_calls (requested_calls response_msg) ;;
           final <- completion None None ;;
           final_msg <- lift (first_choice final) ;;
           _ <- append_message (assistant_message (content final_msg)) ;;
           ret Continue
       | [] =>
           _ <- append_message (Received response_msg) ;;
           ret Continue
       end)
    (fun e => if is_KeyboardInterrupt e then ret Return else ret Continue).

(** [while True], with a budget of passes. *)
Fixpoint chat_loop (fuel : nat) : M unit :=
  match fuel with
  | O => fun _ => None
  | S n =>
      next <- chat_turn ;;
      match next with
      | Return => ret tt
      | Continue => chat_loop n
      end
  end.

End Connected.

Variable cfg : Config.

(** The [try] block of lines 53-130 for one attempt. *)
Definition session (fuel : nat) (disk_store : DiskStore E) : M flow :=
  async_with
    (external EvStoreEnter (store_enter E disk_store))
    (fun _ => external EvStoreExit (store_exit E disk_store))
    (fun _ =>
       async_with
         (external (EvClientEnter (MCP_SERVER_URL cfg))
                   (client_enter E (MCP_SERVER_URL cfg) disk_store))
         (fun mcp_client => external EvClientExit (client_exit E mcp_client))
         (fun mcp_client =>
            mcp_tools <- external EvListTools (list_tools E mcp_client) ;;
            let openai_tools := convert_mcp_to_openai_tools mcp_tools in
            _ <- reset_messages ;;
            _ <- chat_loop mcp_client openai_tools fuel ;;
            ret Return)).

Definition max_retries : nat := 2.

(** Lines 137-139. *)
Definition clear_storage (storage_dir : path) : M unit :=
  fun st =>
    if path_exists E storage_dir (world st)
    then (_ <- file_system (EvRmtree storage_dir) (rmtree E storage_dir) ;;
          file_system (EvMkdir storage_dir) (mkdir E storage_dir)) st
    else ret tt st.

(** One pass of the [for attempt in range(max_retries)] body. *)
Definition attempt_once (fuel : nat) (storage_dir : path) (attempt : nat) : M flow :=
  disk_store <- external (EvDiskStore storage_dir)
                         (DiskStore_init E storage_dir) ;;
  try_except is_ClientNotFoundError
    (session fuel disk_store)
    (fun e =>
       _ <- clear_storage storage_dir ;;
       if (attempt =? max_retries - 1)%nat then raise e else ret Continue).

Fixpoint attempts (fuel : nat) (storage_dir : path) (remaining : list nat)
  : M unit :=
  match remaining with
  | [] => ret tt
  | attempt :: rest =>
      next <- attempt_once fuel storage_dir attempt ;;
      match next with
      | Return => ret tt
      | Continue => attempts fuel storage_dir rest
      end
  end.

Definition run_chat_loop (fuel : nat) (profile : string) : M unit :=
  let storage_dir := [".client_storage"; profile] in
  _ <- file_system (EvMkdir storage_dir) (mkdir E storage_dir) ;;
  attempts fuel storage_dir (seq 0 max_retries).

End WithExternals.

End Client.

(** ** The statements of the specification, in its own words *)

Module ServerSpec.

Import Server.

(** The request context is absent. *)
Definition context_absent (ctx : Context) : bool :=
  negb (truthy (request_context ctx)).

(** The user of the request of the context, when there is one. *)
Definition request_user (ctx : Context) : option pyval :=
  match getattr (request_context ctx) "request" with
  | Ok request_obj =>
      match getattr request_obj "user" with
      | Ok user => Some user
      | Raise _ => None
      end
  | Raise _ => None
  end.

Definition user_missing (ctx : Context) : bool :=
  match request_user ctx with Some _ => false | None => true end.

(** The user is there but does not say it is authenticated. *)
Definition not_authenticated (ctx : Context) : bool :=
  match request_user ctx with
  | Some user =>
      match getattr user "is_authenticated" with
      | Ok flag => negb (truthy flag)
      | Raise _ => true
      end
  | None => false
  end.

(** The access token of a user object: [user.access_token.token] when the
    user has both attributes, else [user.token], else [None]. *)
Definition access_token_of (user : pyval) : pyval :=
  match getattr user "access_token" with
  | Ok nested =>
      match getattr nested "token" with
      | Ok t => t
      | Raise _ => getattr_default user "token" VNone
      end
  | Raise _ => getattr_default user "token" VNone
  end.

Definition request_token (ctx : Context) : pyval :=
  match request_user ctx with
  | Some user => access_token_of user
  | None => VNone
  end.

(** No access token can be extracted from the user object. *)
Definition no_access_token (ctx : Context) : bool :=
  match request_user ctx with
  | Some _ => negb (truthy (request_token ctx))
  | None => false
  end.

(** The three conditions under which the service is refused. *)
Definition refused (ctx : Context) : bool :=
  context_absent ctx
  || (user_missing ctx || not_authenticated ctx)
  || no_access_token ctx.

(** The scopes of the provider, the calendar.events scope when it has
    none. *)
Definition scopes_of (auth_provider : pyval) : pyval :=
  match getattr auth_provider "scopes" with
  | Ok s => s
  | Raise _ => VList [VStr calendar_events_scope]
  end.

(** The credentials of a request. *)
Definition request_credentials (cfg : Config) (auth_provider : pyval)
           (ctx : Context) : Credentials :=
  {| token := request_token ctx;
     refresh_token := VNone;
     token_uri := VStr "https://oauth2.googleapis.com/token";
     client_id := VStr (GOOGLE_CLIENT_ID cfg);
     client_secret := VStr (GOOGLE_CLIENT_SECRET cfg);
     scopes := scopes_of auth_provider |}.

Definition raised_ToolError {A : Type} (r : result A) : bool :=
  match r with Raise e => is_ToolError e | Ok _ => false end.

(** Building the API client from the credentials of the request raises an
    Exception. *)
Definition build_fails (E : Externals) (cfg : Config) (auth_provider : pyval)
           (ctx : Context) (w : World E) : bool :=
  match fst (build E "calendar" "v3" (request_credentials cfg auth_provider ctx)
                   false w) with
  | Raise e => is_Exception e
  | Ok _ => false
  end.

(** The start of an event: its start dateTime or, if absent, its start
    date. *)
Definition event_start (event : pyval) : pyval :=
  match subscript event "start" with
  | Ok (VDict start) => dict_get start "dateTime" (dict_get start "date" VNone)
  | _ => VNone
  end.

(** The summary of an event, "No Title" if absent. *)
Definition event_summary (event : pyval) : pyval :=
  match event with
  | VDict d => dict_get d "summary" (VStr "No Title")
  | _ => VNone
  end.

(** An event as the calendar API returns it: a mapping with a [start]
    mapping. *)
Definition is_event (event : pyval) : bool :=
  match event with
  | VDict d => match lookup "start" d with Some (VDict _) => true | _ => false end
  | _ => false
  end.

Definition listing_line (rt : Runtime) (event : pyval) : string :=
  "- " ++ py_str rt (event_start event) ++ ": " ++ py_str rt (event_summary event).

(** The listing: the heading, then one line per event. *)
Definition listing_text (rt : Runtime) (events : list pyval) : string :=
  join newline ("Upcoming events:" :: map (listing_line rt) events).

(** The [timeMin] of a query for a [time_min] argument and a clock
    reading. *)
Definition lower_time_bound (arguments : list (string * pyval)) (iso : string)
  : pyval :=
  match lookup "time_min" arguments with
  | Some t => if truthy t then t else VStr (replace "+00:00" "Z" iso)
  | None => VStr (replace "+00:00" "Z" iso)
  end.

(** The [maxResults] of a query. *)
Definition result_limit (arguments : list (string * pyval)) : pyval :=
  match lookup "max_results" arguments with
  | Some n => n
  | None => VInt 10
  end.

(** What the wrapper of lines 131-133 makes of an outcome of [build]. *)
Definition wrapped {A : Type} (r : result A) : result A :=
  match r with
  | Ok a => Ok a
  | Raise e =>
      if is_Exception e
      then Raise (Exn ToolError ("System Authorization Failure: " ++ exn_str e))
      else Raise e
  end.

(** A variable of the environment is missing, or present with an empty
    value. *)
Definition missing_or_empty (env : environ) (k : string) : bool :=
  match lookup k env with
  | Some v => v =? ""
  | None => true
  end.

(** The body create_event sends: an argument that is missing is [None],
    a missing description the empty text; both times are tagged UTC. *)
Definition event_body_of (arguments : list (string * pyval)) : pyval :=
  let or_none k := match lookup k arguments with Some v => v | None => VNone end in
  VDict [("summary", or_none "summary");
         ("description",
          match lookup "description" arguments with
          | Some v => v
          | None => VStr ""
          end);
         ("start", VDict [("dateTime", or_none "start_time");
                          ("timeZone", VStr "UTC")]);
         ("end", VDict [("dateTime", or_none "end_time");
                        ("timeZone", VStr "UTC")])].

Definition is_list_query (ev : event) : bool :=
  match ev with EvEventsList _ => true | _ => false end.

Definition is_insert (ev : event) : bool :=
  match ev with EvEventsInsert _ _ => true | _ => false end.

(** A text without a plus sign. *)
Definition plus_free (s : string) : bool :=
  forallb (fun c => negb (Ascii.eqb c "+")) (list_ascii_of_string s).

End ServerSpec.

Module ClientSpec.

Import Client.

Section WithExternals.

Variable E : Externals.
Variable mcp_client : McpClient E.

(** The arguments of a requested call, parsed. *)
Definition parsed_arguments (tool_call : ToolCall) : pyval :=
  match json_loads E (function_arguments tool_call) with
  | Ok args => args
  | Raise _ => VNone
  end.

Definition parses (tool_call : ToolCall) : bool :=
  negb (raises (json_loads E (function_arguments tool_call))).

(** The execution result as a text: the text of the first content
    block, "Success" when there is no block, the error otherwise. *)
Definition output_text (r : result (list pyval)) : string :=
  match r with
  | Ok [] => "Success"
  | Ok (first :: _) =>
      match getattr first "text" with
      | Ok t => py_str (runtime E) t
      | Raise e => "Error: " ++ exn_str e
      end
  | Raise e => "Error: " ++ exn_str e
  end.

(** Executing the calls once each, in order: the outputs and the world
    left behind. *)
Fixpoint executions (calls : list ToolCall) (w : World E)
  : list (ToolCall * string) * World E :=
  match calls with
  | [] => ([], w)
  | tool_call :: rest =>
      let r := call_tool E mcp_client (function_name tool_call)
                         (parsed_arguments tool_call) w in
      let others := executions rest (snd r) in
      ((tool_call, output_text (fst r)) :: fst others, snd others)
  end.

Definition tool_messages (done : list (ToolCall * string)) : list message :=
  map (fun d => tool_message (fst d) (snd d)) done.

Definition call_events (calls : list ToolCall) : list event :=
  map (fun tool_call =>
         EvCallTool (function_name tool_call) (parsed_arguments tool_call))
      calls.

(** No tool execution is interrupted: what [call_tool] raises is an
    Exception. *)
Definition uninterrupted : Prop :=
  forall name args w e,
    fst (call_tool E mcp_client name args w) = Raise e -> is_Exception e = true.

End WithExternals.

(** An event that starts a connection attempt. *)
Definition starts_attempt (ev : event) : bool :=
  match ev with EvDiskStore _ => true | _ => false end.

Definition attempts_made (tr : list event) : nat :=
  List.length (filter starts_attempt tr).

(** The outcome of a run, without the state. *)
Definition fst_outcome {S A : Type} (run : option (result A * S))
  : option (result A) :=
  option_map fst run.

Definition is_call (ev : event) : bool :=
  match ev with EvCallTool _ _ => true | _ => false end.

(** A computation that starts at most [n] connection attempts, as its
    trace shows. *)
Definition at_most (E : Externals) {A : Type} (n : nat) (m : M E A) : Prop :=
  forall st r st',
    m st = Some (r, st') ->
    exists made,
      trace E st' = (trace E st ++ made)%list /\ attempts_made made <= n.

(** A computation every terminating run of which relates the state
    before to the state after. *)
Definition respects (E : Externals) (R : St E -> St E -> Prop) {A : Type}
           (m : M E A) : Prop :=
  forall st r st', m st = Some (r, st') -> R st st'.

(** The conversation only grew. *)
Definition extends_messages (E : Externals) (st st' : St E) : Prop :=
  exists added, messages E st' = (messages E st ++ added)%list.

(** The trace only grew, by calls of the allowed kinds. *)
Definition adds_events (E : Externals) (allowed : event -> bool)
           (st st' : St E) : Prop :=
  exists made,
    trace E st' = (trace E st ++ made)%list /\ forallb allowed made = true.

(** The calls of a chat turn: a prompt, a completion, a tool call. *)
Definition turn_event (ev : event) : bool :=
  match ev with
  | EvInput | EvCompletion _ _ _ _ | EvCallTool _ _ => true
  | _ => false
  end.

(** The calls of a session: entering and leaving the store and the client,
    listing the tools, and the calls of its turns. *)
Definition session_event (ev : event) : bool :=
  match ev with
  | EvStoreEnter | EvStoreExit | EvClientEnter _ | EvClientExit | EvListTools => true
  | _ => turn_event ev
  end.

Definition is_rmtree (ev : event) : bool :=
  match ev with EvRmtree _ => true | _ => false end.

Definition keeps_storage (ev : event) : bool := negb (is_rmtree ev).

(** The calls made between entering and leaving the client: listing the
    tools and the calls of the turns. *)
Definition body_event (ev : event) : bool :=
  match ev with
  | EvListTools => true
  | _ => turn_event ev
  end.

Section Retry.

Variable E : Externals.
Variable cfg : Config.

(** How one connection attempt ends: it does not end; the session ran
    to its end; an error left it; or the [try] block was left by a
    ClientNotFoundError. *)
Inductive attempt_outcome : Type :=
| Diverged
| Finished (st : St E)
| Failed (e : exn) (st : St E)
| Rejected (e : exn) (st : St E).

(** The whole connection sequence of one attempt: open the store, then
    the [try] block. *)
Definition connection_sequence (fuel : nat) (storage_dir : path) (st : St E)
  : attempt_outcome :=
  match external E (EvDiskStore storage_dir) (DiskStore_init E storage_dir) st with
  | None => Diverged
  | Some (Raise e, s) => Failed e s
  | Some (Ok disk_store, s) =>
      match session E cfg fuel disk_store s with
      | None => Diverged
      | Some (Ok _, s1) => Finished s1
      | Some (Raise e, s1) =>
          if is_ClientNotFoundError e then Rejected e s1 else Failed e s1
      end
  end.

(** The state once the directory was deleted and recreated. *)
Definition cleared (storage_dir : path) (st : St E) : St E :=
  {| world := mkdir E storage_dir (rmtree E storage_dir (world E st));
     messages := messages E st;
     trace := (trace E st ++ [EvRmtree storage_dir; EvMkdir storage_dir])%list |}.

(** The state once the directory, when it exists, was deleted and
    recreated. *)
Definition tidied (storage_dir : path) (st : St E) : St E :=
  if path_exists E storage_dir (world E st) then cleared storage_dir st else st.

(** The state in which the first attempt starts. *)
Definition started (storage_dir : path) (st : St E) : St E :=
  {| world := mkdir E storage_dir (world E st);
     messages := messages E st;
     trace := (trace E st ++ [EvMkdir storage_dir])%list |}.

End Retry.

End ClientSpec.

(** ** Closed scenarios *)

Module Scenario.

(** A runtime for closed examples; none of them prints a container or
    converts a text that is not a plain number. *)
Definition plain_runtime : Runtime :=
  {| py_repr := fun v => "<" ++ type_name v ++ ">";
     int_other := fun _ => None |}.

Definition user_with_token (tok : pyval) : pyval :=
  VObj "AuthenticatedUser"
       [("is_authenticated", VBool true);
        ("access_token", VObj "AccessToken" [("token", tok)])].

Definition context_of (user : pyval) : Server.Context :=
  {| Server.request_context :=
       VObj "RequestContext" [("request", VObj "Request" [("user", user)])];
     Server.session_id := Ok "session-1" |}.

Definition signed_in : Server.Context :=
  context_of (user_with_token (VStr "ya29.token")).

(** A server world with nothing to remember: the context lookup, the
    client construction and the two API calls answer as given. *)
Definition server_externals (context : result Server.Context)
           (build_error : option exn) (listing created : result pyval)
  : Server.Externals :=
  {| Server.World := unit;
     Server.Service := Server.Credentials;
     Server.runtime := plain_runtime;
     Server.GoogleProvider := fun _ => VObj "GoogleProvider" [];
     Server.get_context := fun w => (context, w);
     Server.build := fun _ _ creds _ w =>
       (match build_error with Some e => Raise e | None => Ok creds end, w);
     Server.utcnow_isoformat := fun w => ("2026-01-05T10:00:00+00:00", w);
     Server.events_list_execute := fun _ _ w => (listing, w);
     Server.events_insert_execute := fun _ _ _ w => (created, w) |}.

Definition two_items : list pyval :=
  [VDict [("summary", VStr "Standup");
          ("start", VDict [("dateTime", VStr "2026-01-05T09:00:00Z")])];
   VDict [("start", VDict [("date", VStr "2026-01-06")])]].

Definition two_events_fields : list (string * pyval) :=
  [("kind", VStr "calendar#events"); ("items", VList two_items)].

Definition two_events : pyval := VDict two_events_fields.

Definition created_event : pyval :=
  VDict [("htmlLink", VStr "https://calendar.example/event/1")].

(** The tool is run where no request context is active. *)
Definition no_active_context : Server.Externals :=
  server_externals (Raise (Exn RuntimeError "No active context found.")) None
                   (Ok two_events) (Ok created_event).

Definition working_server : Server.Externals :=
  server_externals (Ok signed_in) None (Ok two_events) (Ok created_event).

Definition sample_config : Server.Config :=
  {| Server.GOOGLE_CLIENT_ID := "client-id";
     Server.GOOGLE_CLIENT_SECRET := "client-secret";
     Server.HOST := "0.0.0.0";
     Server.PORT := 8000;
     Server.SERVER_URL := "http://localhost:8000";
     Server.REDIS_HOST := "localhost";
     Server.REDIS_PORT := 6379;
     Server.REDIS_DB := 0 |}.

Definition sample_provider : pyval := VObj "GoogleProvider" [].

Definition sample_environ : environ :=
  [("GOOGLE_CLIENT_ID", "client-id"); ("GOOGLE_CLIENT_SECRET", "client-secret")].

(** A user whose nested token is empty although a plain one is there. *)
Definition user_with_empty_nested_token : pyval :=
  VObj "AuthenticatedUser"
       [("is_authenticated", VBool true);
        ("access_token", VObj "AccessToken" [("token", VStr "")]);
        ("token", VStr "ya29.plain")].

(** An answer of the API whose second event has no start. *)
Definition spoiled_answer : list (string * pyval) :=
  [("items",
    VList [VDict [("summary", VStr "Standup");
                  ("start", VDict [("dateTime", VStr "2026-01-05T09:00:00Z")])];
           VDict [("summary", VStr "Floating")];
           VDict [("start", VDict [("date", VStr "2026-01-06")])]])].

Definition spoiled_server : Server.Externals :=
  server_externals (Ok signed_in) None (Ok (VDict spoiled_answer))
                   (Ok created_event).

(** *** The client side *)

Definition list_call : Client.ToolCall :=
  {| Client.id := "call_1";
     Client.function_name := "list_upcoming_events";
     Client.function_arguments := "{}" |}.

(** A call whose argument text is cut short. *)
Definition cut_call : Client.ToolCall :=
  {| Client.id := "call_2";
     Client.function_name := "create_event";
     Client.function_arguments := "{" |}.

Definition text_block (text : string) : pyval :=
  VObj "TextContent" [("type", VStr "text"); ("text", VStr text)].

Definition remote_tool : Client.MCPTool :=
  {| Client.name := "list_upcoming_events";
     Client.description := VStr "List upcoming events from the primary calendar.";
     Client.inputSchema := VDict [("type", VStr "object")] |}.

(** [json.loads] on the two argument texts of the scenarios: the empty
    object, and the text that is cut short. *)
Definition loads (text : string) : result pyval :=
  if text =? "{}"
  then Ok (VDict [])
  else Raise (Exn JSONDecodeError
                  "Expecting property name enclosed in double quotes: line 1 column 2 (char 1)").

(** A client world that counts the connections tried so far: the user
    types [typed] at every prompt, the first completion requests [calls],
    and connecting answers as [connect] says for the count. *)
Definition client_externals (typed : string) (calls : list Client.ToolCall)
           (connect : nat -> result unit) : Client.Externals :=
  {| Client.World := nat;
     Client.DiskStore := unit;
     Client.McpClient := unit;
     Client.runtime := plain_runtime;
     Client.json_loads := loads;
     Client.input := fun _ w => (Ok typed, w);
     Client.chat_completions_create := fun _ _ tools _ w =>
       (Ok [match tools with
            | Some _ => {| Client.content := VNone;
                           Client.tool_calls := Some calls |}
            | None => {| Client.content := VStr "Nothing is planned.";
                         Client.tool_calls := None |}
            end], w);
     Client.DiskStore_init := fun _ w => (Ok tt, w);
     Client.store_enter := fun _ w => (Ok tt, w);
     Client.store_exit := fun _ w => (Ok tt, w);
     Client.client_enter := fun _ _ w => (connect w, S w);
     Client.client_exit := fun _ w => (Ok tt, w);
     Client.list_tools := fun _ w => (Ok [remote_tool], w);
     Client.call_tool := fun _ _ _ w =>
       (Ok [text_block "No upcoming events found."], w);
     Client.path_exists := fun _ _ => true;
     Client.rmtree := fun _ w => w;
     Client.mkdir := fun _ w => w |}.

(** A client world that counts the prompts answered so far: the user
    types what [script] says for the count, the first completion of a turn
    answers [first] (the requested calls, or an error), every tool answers
    [tool], and the final completion of a turn has a text. *)
Definition scripted_client (script : nat -> result string)
           (first : result (list Client.ToolCall)) (tool : result (list pyval))
  : Client.Externals :=
  {| Client.World := nat;
     Client.DiskStore := unit;
     Client.McpClient := unit;
     Client.runtime := plain_runtime;
     Client.json_loads := loads;
     Client.input := fun _ w => (script w, S w);
     Client.chat_completions_create := fun _ _ tools _ w =>
       (match tools with
        | Some _ =>
            match first with
            | Ok calls => Ok [{| Client.content := VStr "Let me look.";
                                 Client.tool_calls := Some calls |}]
            | Raise e => Raise e
            end
        | None => Ok [{| Client.content := VStr "Nothing is planned.";
                         Client.tool_calls := None |}]
        end, w);
     Client.DiskStore_init := fun _ w => (Ok tt, w);
     Client.store_enter := fun _ w => (Ok tt, w);
     Client.store_exit := fun _ w => (Ok tt, w);
     Client.client_enter := fun _ _ w => (Ok tt, w);
     Client.client_exit := fun _ w => (Ok tt, w);
     Client.list_tools := fun _ w => (Ok [remote_tool], w);
     Client.call_tool := fun _ _ _ w => (tool, w);
     Client.path_exists := fun _ _ => true;
     Client.rmtree := fun _ w => w;
     Client.mkdir := fun _ w => w |}.

(** One question, then "quit". *)
Definition ask_then_quit (n : nat) : result string :=
  match n with
  | O => Ok "What is planned today?"
  | S _ => Ok "quit"
  end.

Definition no_events_block : list pyval :=
  [text_block "No upcoming events found."].

Definition asking_client : Client.Externals :=
  scripted_client ask_then_quit (Ok [list_call]) (Ok no_events_block).

Definition sample_tools : list pyval :=
  Client.convert_mcp_to_openai_tools [remote_tool].

(** The conversation after the one question of [asking_client]. *)
Definition asked_messages : list Client.message :=
  [Client.user_message "What is planned today?";
   Client.Received {| Client.content := VStr "Let me look.";
                      Client.tool_calls := Some [list_call] |};
   Client.tool_message list_call "No upcoming events found.";
   Client.assistant_message (VStr "Nothing is planned.")].

(** The calls of that conversation, the closing prompt included. *)
Definition asked_trace : list Client.event :=
  [Client.EvInput;
   Client.EvCompletion "gpt-4o" [Client.user_message "What is planned today?"]
     (Some sample_tools) (Some "auto");
   Client.EvCallTool "list_upcoming_events" (VDict []);
   Client.EvCompletion "gpt-4o"
     [Client.user_message "What is planned today?";
      Client.Received {| Client.content := VStr "Let me look.";
                         Client.tool_calls := Some [list_call] |};
      Client.tool_message list_call "No upcoming events found."]
     None None;
   Client.EvInput].

(** A tool call cancelled under way: what it raises is no Exception. *)
Definition cancelled_client : Client.Externals :=
  scripted_client ask_then_quit (Ok [list_call])
    (Raise (Exn (OtherBaseException "CancelledError") "")).

(** Completions that fail. *)
Definition offline_client : Client.Externals :=
  scripted_client ask_then_quit
    (Raise (Exn (OtherException "APIConnectionError") "Connection error."))
    (Ok no_events_block).

(** Completions that request no tool. *)
Definition plain_client : Client.Externals :=
  scripted_client ask_then_quit (Ok []) (Ok no_events_block).

(** The user leaves at the first prompt. *)
Definition quitting_client : Client.Externals :=
  client_externals "quit" [] (fun _ => Ok tt).

(** The server cannot be reached. *)
Definition unreachable_client : Client.Externals :=
  client_externals "quit" []
    (fun _ => Raise (Exn (OtherException "ConnectError")
                         "All connection attempts failed")).

Definition rejected_once (n : nat) : result unit :=
  match n with
  | O => Raise (Exn ClientNotFoundError "Client not found")
  | S _ => Ok tt
  end.

Definition client_config : Client.Config :=
  {| Client.OPENAI_API_KEY := "sk-test";
     Client.MCP_SERVER_URL := Client.default_server_url |}.

Definition state_of (E : Client.Externals) (w : Client.World E)
           (messages : list Client.message) (trace : list Client.event)
  : Client.St E :=
  {| Client.world := w; Client.messages := messages; Client.trace := trace |}.

Definition fresh (E : Client.Externals) (w : Client.World E) : Client.St E :=
  state_of E w [] [].

End Scenario.

(** ** Properties of server.py *)

Module ServerProps.

Import Server ServerSpec.

Ltac unfold_m :=
  unfold bind, lift, ret, raise, try_except, try_except_binding, external in *.

Lemma extract_access_token_spec (E : Externals) (user : pyval) (st : St E) :
  extract_access_token E user st = (Ok (access_token_of user), st).
Proof.
  unfold extract_access_token, access_token_of, hasattr, getattr, getattr_default.
  unfold_m.
  destruct user; simpl; try reflexivity.
  destruct (lookup "access_token" attrs) as [nested|]; simpl; [|reflexivity].
  destruct nested; simpl; try reflexivity.
  unfold getattr.
  destruct (lookup "token" attrs0); reflexivity.
Qed.

Lemma provider_scopes_spec (auth_provider : pyval) :
  provider_scopes auth_provider = scopes_of auth_provider.
Proof.
  unfold provider_scopes, scopes_of, hasattr, getattr_default, getattr.
  destruct auth_provider; try reflexivity.
  destruct (lookup "scopes" attrs); reflexivity.
Qed.

Lemma service_refused (E : Externals) (cfg : Config) (auth_provider : pyval)
      (ctx : Context) (st : St E) :
  refused ctx = true ->
  exists reason,
    get_calendar_service E cfg auth_provider ctx st
    = (Raise (Exn ToolError ("System Authorization Failure: " ++ reason)), st).
Proof.
  unfold refused, context_absent, user_missing, not_authenticated,
    no_access_token, request_token, request_user, get_calendar_service.
  destruct ctx as [rc sid]; simpl.
  intros H. unfold_m.
  destruct (truthy rc) eqn:Hrc; simpl in *.
  2:{ eexists; reflexivity. }
  destruct (getattr rc "request") as [request_obj|e] eqn:Hreq; simpl in *.
  2:{ destruct rc; simpl in Hreq; try (inversion Hreq; subst; eexists; reflexivity).
      destruct (lookup "request" attrs); inversion Hreq; subst.
      eexists; reflexivity. }
  unfold hasattr, getattr in *.
  destruct request_obj; simpl in *; try (eexists; reflexivity).
  destruct (lookup "user" attrs) as [user|]; simpl in *; [|eexists; reflexivity].
  destruct user; simpl in *; try (eexists; reflexivity).
  destruct (lookup "is_authenticated" attrs0) as [flag|]; simpl in *;
    [|eexists; reflexivity].
  destruct (truthy flag); simpl in *; [|eexists; reflexivity].
  rewrite extract_access_token_spec.
  destruct (truthy (access_token_of (VObj cls0 attrs0))); simpl in *;
    [discriminate|eexists; reflexivity].
Qed.

Lemma service_accepted (E : Externals) (cfg : Config) (auth_provider : pyval)
      (ctx : Context) (st : St E) :
  refused ctx = false ->
  let creds := request_credentials cfg auth_provider ctx in
  get_calendar_service E cfg auth_provider ctx st
  = (wrapped (fst (build E "calendar" "v3" creds false (fst st))),
     (snd (build E "calendar" "v3" creds false (fst st)),
      (snd st ++ [EvBuild "calendar" "v3" creds false])%list)).
Proof.
  unfold refused, context_absent, user_missing, not_authenticated,
    no_access_token, request_credentials, request_token, request_user,
    get_calendar_service.
  destruct ctx as [rc sid]; simpl.
  intros H. unfold_m.
  destruct (truthy rc) eqn:Hrc; simpl in *; [|discriminate].
  destruct (getattr rc "request") as [request_obj|e] eqn:Hreq; simpl in *;
    [|discriminate].
  unfold hasattr, getattr in *.
  destruct request_obj; simpl in *; try discriminate.
  destruct (lookup "user" attrs) as [user|]; simpl in *; [|discriminate].
  destruct user; simpl in *; try discriminate.
  destruct (lookup "is_authenticated" attrs0) as [flag|]; simpl in *;
    [|discriminate].
  destruct (truthy flag); simpl in *; [|discriminate].
  rewrite extract_access_token_spec.
  destruct (truthy (access_token_of (VObj cls0 attrs0))); simpl in *;
    [|discriminate].
  rewrite provider_scopes_spec.
  unfold Credentials_init, wrapped.
  destruct (build E _ _ _ _ _) as [[svc|e] w]; simpl; [reflexivity|].
  destruct (is_Exception e); reflexivity.
Qed.

(** The only call get_calendar_service records is the one to [build]. *)
Lemma service_trace (E : Externals) (cfg : Config) (auth_provider : pyval)
      (ctx : Context) (st : St E) :
  exists made,
    snd (snd (get_calendar_service E cfg auth_provider ctx st))
    = (snd st ++ made)%list
    /\ (made = [] \/ exists creds, made = [EvBuild "calendar" "v3" creds false]).
Proof.
  destruct (refused ctx) eqn:Href.
  - destruct (service_refused E cfg auth_provider ctx st Href) as [reason Hr].
    rewrite Hr. exists []. simpl. rewrite app_nil_r. auto.
  - rewrite (service_accepted E cfg auth_provider ctx st Href). simpl.
    eexists. split; [reflexivity|]. right. eexists. reflexivity.
Qed.

(** C1, as the code has it: get_calendar_service raises a ToolError exactly
    when the request context is absent, the user of the request is missing
    or not authenticated, no access token can be extracted from the user
    object, or building the API client itself raises an Exception;
    when none of the first three holds its outcome is that of [build] on
    credentials carrying the access token of the request, an Exception of
    [build] being wrapped into the ToolError. *)
Theorem get_calendar_service_outcome (E : Externals) (cfg : Config)
        (auth_provider : pyval) (ctx : Context) (st : St E) :
  let out := get_calendar_service E cfg auth_provider ctx st in
  let creds := request_credentials cfg auth_provider ctx in
  raised_ToolError (fst out)
  = (refused ctx || build_fails E cfg auth_provider ctx (fst st))
  /\ (refused ctx = false ->
      token creds = request_token ctx
      /\ fst out = wrapped (fst (build E "calendar" "v3" creds false (fst st)))).
Proof.
  intros out creds. subst out.
  destruct (refused ctx) eqn:Href.
  - destruct (service_refused E cfg auth_provider ctx st Href) as [reason Hr].
    rewrite Hr. simpl. split; [reflexivity|discriminate].
  - rewrite (service_accepted E cfg auth_provider ctx st Href).
    fold creds. unfold build_fails. fold creds. simpl.
    split; [|intros _; split; reflexivity].
    destruct (fst (build E "calendar" "v3" creds false (fst st))) as [svc|e];
      simpl; [reflexivity|].
    destruct (is_Exception e) eqn:He; simpl; [reflexivity|].
    unfold is_Exception in He. unfold raised_ToolError, is_ToolError.
    destruct (exn_type e); simpl in *; congruence.
Qed.

(** C1, as stated, fails: with a signed-in user whose token is there, a
    [build] that raises still ends in a ToolError. *)
Lemma get_calendar_service_build_error :
  let E := Scenario.server_externals (Ok Scenario.signed_in)
             (Some (Exn (OtherException "MutualTLSChannelError")
                        "Unsupported GOOGLE_API_USE_CLIENT_CERTIFICATE value"))
             (Ok Scenario.two_events) (Ok Scenario.created_event) in
  refused Scenario.signed_in = false
  /\ fst (get_calendar_service E Scenario.sample_config Scenario.sample_provider
                               Scenario.signed_in (tt, []))
     = Raise (Exn ToolError
                  "System Authorization Failure: Unsupported GOOGLE_API_USE_CLIENT_CERTIFICATE value").
Proof. split; reflexivity. Qed.

(** C10: the only credentials get_calendar_service constructs are those
    handed to [build]; they carry the access token extracted from the
    request, the Google token URI, the configured client id and secret and
    the scopes of the provider (the calendar.events scope when it has
    none), and their refresh token is [None]. *)
Theorem credentials_reconstructed (E : Externals) (cfg : Config)
        (auth_provider : pyval) (ctx : Context) (st : St E) :
  let out := get_calendar_service E cfg auth_provider ctx st in
  exists made,
    snd (snd out) = (snd st ++ made)%list
    /\ (made = [] \/ exists creds, made = [EvBuild "calendar" "v3" creds false])
    /\ (refused ctx = false -> made <> [])
    /\ forall api version creds cache,
        In (EvBuild api version creds cache) made ->
        token creds = request_token ctx
        /\ refresh_token creds = VNone
        /\ token_uri creds = VStr "https://oauth2.googleapis.com/token"
        /\ client_id creds = VStr (GOOGLE_CLIENT_ID cfg)
        /\ client_secret creds = VStr (GOOGLE_CLIENT_SECRET cfg)
        /\ scopes creds = match getattr auth_provider "scopes" with
                          | Ok s => s
                          | Raise _ => VList [VStr calendar_events_scope]
                          end.
Proof.
  intros out. subst out.
  destruct (refused ctx) eqn:Href.
  - destruct (service_refused E cfg auth_provider ctx st Href) as [reason Hr].
    rewrite Hr. exists []. simpl. rewrite app_nil_r.
    repeat split; auto; try discriminate; contradiction.
  - rewrite (service_accepted E cfg auth_provider ctx st Href). simpl.
    eexists. split; [reflexivity|].
    split; [right; eexists; reflexivity|].
    split; [discriminate|].
    intros api version creds cache [Hin|[]].
    inversion Hin; subst. repeat split; reflexivity.
Qed.

(** *** Listing events *)

Lemma event_line_spec (E : Externals) (event : pyval) :
  is_event event = true ->
  event_line E event = Ok (listing_line (runtime E) event).
Proof.
  unfold is_event, event_line, listing_line, event_start, event_summary.
  destruct event; try discriminate. simpl.
  destruct (lookup "start" d) as [start|]; try discriminate.
  destruct start; try discriminate. intros _. reflexivity.
Qed.

Lemma format_events_spec (E : Externals) (events : list pyval) :
  forall result_lines,
    forallb is_event events = true ->
    format_events E events result_lines
    = Ok (result_lines ++ map (listing_line (runtime E)) events)%list.
Proof.
  induction events as [|event rest IH]; intros result_lines Hall; simpl.
  - now rewrite app_nil_r.
  - apply andb_true_iff in Hall. destruct Hall as [Hev Hrest].
    rewrite (event_line_spec E event Hev). simpl.
    rewrite (IH _ Hrest). now rewrite <- app_assoc.
Qed.

Lemma render_events_listing (E : Externals) (r : list (string * pyval))
      (events : list pyval) :
  events <> [] ->
  forallb is_event events = true ->
  lookup "items" r = Some (VList events) ->
  render_events E (VDict r) = Ok (text_result (listing_text (runtime E) events)).
Proof.
  intros Hne Hall Hitems.
  unfold render_events, method_get, dict_get. rewrite Hitems. simpl.
  destruct events as [|event rest]; [contradiction|].
  cbn [truthy negb iterate and_then].
  rewrite (format_events_spec E (event :: rest) _ Hall). reflexivity.
Qed.

Lemma render_events_none (E : Externals) (r : list (string * pyval)) :
  truthy (dict_get r "items" (VList [])) = false ->
  render_events E (VDict r) = Ok (text_result "No upcoming events found.").
Proof.
  intros H. unfold render_events, method_get. simpl. now rewrite H.
Qed.

(** C4: when the calendar API returns a non-empty list of events,
    list_upcoming_events answers with one text: the line "Upcoming
    events:", then one line "- {start}: {summary}" per event in the order
    of the API, the start being the start dateTime or, if absent, the
    start date, and the summary "No Title" if absent. *)
Theorem list_upcoming_events_listing (E : Externals) (cfg : Config)
        (auth_provider : pyval) (arguments r : list (string * pyval))
        (events : list pyval) (st st' : St E) :
  events <> [] ->
  forallb is_event events = true ->
  query_events E cfg auth_provider arguments st = (Ok (VDict r), st') ->
  lookup "items" r = Some (VList events) ->
  ListUpcomingEvents_run E cfg auth_provider arguments st
  = (Ok (text_result
           (join newline
                 ("Upcoming events:"
                    :: map (fun event =>
                              "- " ++ py_str (runtime E) (event_start event)
                                   ++ ": "
                                   ++ py_str (runtime E) (event_summary event))
                           events))),
     st').
Proof.
  intros Hne Hall Hq Hitems.
  unfold ListUpcomingEvents_run. unfold_m. rewrite Hq.
  rewrite (render_events_listing E r events Hne Hall Hitems). reflexivity.
Qed.

(** The listing for the two events of the working scenario. *)
Lemma list_upcoming_events_listing_witness :
  ListUpcomingEvents_run Scenario.working_server Scenario.sample_config
    Scenario.sample_provider [] (tt, [])
  = (Ok (text_result
           ("Upcoming events:" ++ newline
              ++ "- 2026-01-05T09:00:00Z: Standup" ++ newline
              ++ "- 2026-01-06: No Title")),
     (tt, [EvBuild "calendar" "v3"
                   (request_credentials Scenario.sample_config
                      Scenario.sample_provider Scenario.signed_in) false;
           EvEventsList {| calendarId := "primary";
                           timeMin := VStr "2026-01-05T10:00:00Z";
                           maxResults := VInt 10;
                           singleEvents := true;
                           orderBy := "startTime" |}])).
Proof.
  refine (list_upcoming_events_listing Scenario.working_server
            Scenario.sample_config Scenario.sample_provider []
            Scenario.two_events_fields Scenario.two_items (tt, []) _
            _ eq_refl eq_refl eq_refl).
  discriminate.
Defined.

(** The query of lines 150-168, step by step. *)
Lemma query_events_run (E : Externals) (cfg : Config) (auth_provider : pyval)
      (arguments : list (string * pyval)) (st : St E) :
  query_events E cfg auth_provider arguments st
  = match get_context E (fst st) with
    | (Raise e, w1) => (Raise e, (w1, snd st))
    | (Ok ctx, w1) =>
        match get_calendar_service E cfg auth_provider ctx (w1, snd st) with
        | (Raise e, st2) => (Raise e, st2)
        | (Ok service, st2) =>
            let clock := utcnow_isoformat E (fst st2) in
            match session_id ctx with
            | Raise e => (Raise e, (snd clock, snd st2))
            | Ok _ =>
                let p := {| calendarId := "primary";
                            timeMin := lower_time_bound arguments (fst clock);
                            maxResults := result_limit arguments;
                            singleEvents := true;
                            orderBy := "startTime" |} in
                let answer := events_list_execute E service p (snd clock) in
                (fst answer, (snd answer, (snd st2 ++ [EvEventsList p])%list))
            end
        end
    end.
Proof.
  unfold query_events, utc_now, lower_time_bound, result_limit, dict_get.
  unfold_m. destruct st as [w tr]. simpl.
  destruct (get_context E w) as [[ctx|e] w1]; simpl; rewrite app_nil_r;
    [|reflexivity].
  destruct (get_calendar_service E cfg auth_provider ctx (w1, tr))
    as [[service|e] [w2 tr2]]; simpl; [|reflexivity].
  destruct (utcnow_isoformat E w2) as [iso w3]; simpl. rewrite app_nil_r.
  destruct (session_id ctx) as [sid|e]; simpl; [|reflexivity].
  destruct (lookup "time_min" arguments) as [t|]; simpl;
    [destruct (truthy t)|];
    destruct (events_list_execute E service _ w3); reflexivity.
Qed.

Lemma list_upcoming_events_trace (E : Externals) (cfg : Config)
      (auth_provider : pyval) (arguments : list (string * pyval)) (st : St E) :
  snd (ListUpcomingEvents_run E cfg auth_provider arguments st)
  = snd (query_events E cfg auth_provider arguments st).
Proof.
  unfold ListUpcomingEvents_run. unfold_m.
  destruct (query_events E cfg auth_provider arguments st) as [[r|e] st'];
    simpl.
  - destruct (render_events E r) as [t|e]; simpl; [reflexivity|].
    destruct (is_Exception e); reflexivity.
  - destruct (is_Exception e); reflexivity.
Qed.

(** C9, as the code has it: an answer of the API with missing or empty
    items yields the text "No upcoming events found."; the lower time
    bound of every query is the time_min argument when it is supplied and
    true (not empty), otherwise the clock reading in UTC with a Z suffix;
    the maximum count is the max_results argument when it is supplied,
    otherwise 10. *)
Theorem list_upcoming_events_query (E : Externals) (cfg : Config)
        (auth_provider : pyval) (arguments : list (string * pyval))
        (st : St E) :
  let out := ListUpcomingEvents_run E cfg auth_provider arguments st in
  (forall r st',
      query_events E cfg auth_provider arguments st = (Ok (VDict r), st') ->
      truthy (dict_get r "items" (VList [])) = false ->
      out = (Ok (text_result "No upcoming events found."), st'))
  /\ exists made,
      snd (snd out) = (snd st ++ made)%list
      /\ forall p,
          In (EvEventsList p) made ->
          calendarId p = "primary"
          /\ maxResults p = match lookup "max_results" arguments with
                            | Some n => n
                            | None => VInt 10
                            end
          /\ exists w,
              let now := replace "+00:00" "Z" (fst (utcnow_isoformat E w)) in
              timeMin p = match lookup "time_min" arguments with
                          | Some t => if truthy t then t else VStr now
                          | None => VStr now
                          end.
Proof.
  intros out. subst out. split.
  - intros r st' Hq Hnone.
    unfold ListUpcomingEvents_run. unfold_m. rewrite Hq.
    now rewrite (render_events_none E r Hnone).
  - rewrite list_upcoming_events_trace, query_events_run.
    destruct st as [w tr]. simpl.
    destruct (get_context E w) as [[ctx|e] w1]; simpl.
    2:{ exists []. rewrite app_nil_r. split; [reflexivity|contradiction]. }
    pose proof (service_trace E cfg auth_provider ctx (w1, tr))
      as (made & Htr & Hshape).
    simpl in Htr.
    destruct (get_calendar_service E cfg auth_provider ctx (w1, tr))
      as [[service|e] [w2 tr2]]; simpl in *.
    2:{ exists made. split; [assumption|].
        intros p Hin. destruct Hshape as [->|[creds ->]];
          [contradiction|destruct Hin as [Hin|[]]; discriminate]. }
    destruct (session_id ctx) as [sid|e]; simpl.
    2:{ exists made. split; [assumption|].
        intros p Hin. destruct Hshape as [->|[creds ->]];
          [contradiction|destruct Hin as [Hin|[]]; discriminate]. }
    eexists (made ++ [_])%list. rewrite Htr, <- app_assoc.
    split; [reflexivity|].
    intros p Hin. apply in_app_or in Hin. destruct Hin as [Hin|[Hin|[]]].
    + destruct Hshape as [->|[creds ->]];
        [contradiction|destruct Hin as [Hin|[]]; discriminate].
    + inversion Hin; subst; clear Hin. simpl.
      repeat split. exists w2. reflexivity.
Qed.

(** C9, as stated, fails: a time_min argument that is supplied but empty
    is not the lower time bound of the query, the clock reading is. *)
Lemma list_upcoming_events_empty_time_min :
  let arguments := [("time_min", VStr "")] in
  lookup "time_min" arguments = Some (VStr "")
  /\ snd (snd (ListUpcomingEvents_run Scenario.working_server
                 Scenario.sample_config Scenario.sample_provider
                 arguments (tt, [])))
     = [EvBuild "calendar" "v3"
                (request_credentials Scenario.sample_config
                   Scenario.sample_provider Scenario.signed_in) false;
        EvEventsList {| calendarId := "primary";
                        timeMin := VStr "2026-01-05T10:00:00Z";
                        maxResults := VInt 10;
                        singleEvents := true;
                        orderBy := "startTime" |}].
Proof. split; reflexivity. Qed.

(** *** What the two [run] methods let through *)

(** list_upcoming_events reports every Exception as a text. *)
Lemma list_upcoming_events_reports (E : Externals) (cfg : Config)
      (auth_provider : pyval) (arguments : list (string * pyval)) (st : St E) :
  match fst (ListUpcomingEvents_run E cfg auth_provider arguments st) with
  | Ok _ => True
  | Raise e => is_Exception e = false
  end.
Proof.
  unfold ListUpcomingEvents_run. unfold_m.
  destruct (query_events E cfg auth_provider arguments st) as [[r|e] st'];
    simpl.
  - destruct (render_events E r) as [t|e]; simpl; [exact I|].
    destruct (is_Exception e) eqn:He; simpl; auto.
  - destruct (is_Exception e) eqn:He; simpl; auto.
Qed.

Lemma list_upcoming_events_error_text (E : Externals) (cfg : Config)
      (auth_provider : pyval) (arguments : list (string * pyval))
      (st st' : St E) (e : exn) :
  query_events E cfg auth_provider arguments st = (Raise e, st') ->
  is_Exception e = true ->
  ListUpcomingEvents_run E cfg auth_provider arguments st
  = (Ok (text_result ("Google Calendar API Error: " ++ exn_str e)), st').
Proof.
  intros Hq He. unfold ListUpcomingEvents_run. unfold_m.
  now rewrite Hq, He.
Qed.

(** create_event reports an Exception of the service or of the API as a
    text when the context was bound and its session id can be read. *)
Lemma create_event_error_text (E : Externals) (cfg : Config)
      (auth_provider : pyval) (arguments : list (string * pyval))
      (st st' : St E) (ctx : Context) (w : World E) (sid : string) (e : exn) :
  get_context E (fst st) = (Ok ctx, w) ->
  session_id ctx = Ok sid ->
  get_calendar_service E cfg auth_provider ctx (w, snd st) = (Raise e, st') ->
  is_Exception e = true ->
  CreateEvent_run E cfg auth_provider arguments st
  = (Ok (text_result ("Failed to create event: " ++ exn_str e)), st').
Proof.
  intros Hctx Hsid Hsvc He.
  unfold CreateEvent_run, CreateEvent_handler, local.
  unfold try_except_binding, try_except, bind, external.
  rewrite Hctx. cbv beta iota. rewrite app_nil_r, Hsvc, He.
  unfold ret, lift. now rewrite Hsid.
Qed.

(** C8 fails for create_event: when [get_context] raises, the handler of
    lines 224-227 reads the local [ctx] that was never assigned, and the
    UnboundLocalError leaves [run]. *)
Theorem create_event_unbound_context (E : Externals) (cfg : Config)
        (auth_provider : pyval) (arguments : list (string * pyval))
        (st : St E) (e : exn) (w : World E) :
  get_context E (fst st) = (Raise e, w) ->
  is_Exception e = true ->
  exists raised,
    CreateEvent_run E cfg auth_provider arguments st = (Raise raised, (w, snd st))
    /\ exn_type raised = UnboundLocalError.
Proof.
  intros Hctx He.
  unfold CreateEvent_run, CreateEvent_handler, local. unfold_m.
  rewrite Hctx. simpl. rewrite app_nil_r, He.
  eexists. split; reflexivity.
Qed.

(** create_event run where no request context is active. *)
Lemma create_event_unbound_context_witness :
  exists raised,
    CreateEvent_run Scenario.no_active_context Scenario.sample_config
      Scenario.sample_provider
      [("summary", VStr "Review"); ("start_time", VStr "2026-01-05T10:00:00Z");
       ("end_time", VStr "2026-01-05T11:00:00Z")] (tt, [])
    = (Raise raised, (tt, []))
    /\ exn_type raised = UnboundLocalError.
Proof.
  apply (create_event_unbound_context Scenario.no_active_context
           Scenario.sample_config Scenario.sample_provider _ (tt, [])
           (Exn RuntimeError "No active context found.") tt);
    reflexivity.
Defined.

(** The same handler lets the error of [ctx.session_id] through: a
    context without a request context is refused by the service, and a
    session id that cannot be read then leaves [run]. *)
Lemma create_event_session_error (E : Externals) (cfg : Config)
      (auth_provider : pyval) (arguments : list (string * pyval))
      (st : St E) (ctx : Context) (w : World E) (e : exn) :
  get_context E (fst st) = (Ok ctx, w) ->
  refused ctx = true ->
  session_id ctx = Raise e ->
  CreateEvent_run E cfg auth_provider arguments st = (Raise e, (w, snd st)).
Proof.
  intros Hctx Href Hsid.
  destruct (service_refused E cfg auth_provider ctx (w, snd st) Href)
    as [reason Hr].
  unfold CreateEvent_run, CreateEvent_handler, local.
  unfold try_except_binding, try_except, bind, external.
  rewrite Hctx. cbv beta iota. rewrite app_nil_r, Hr.
  unfold ret, lift. simpl. now rewrite Hsid.
Qed.

(** In the same situation list_upcoming_events answers with a text. *)
Lemma list_upcoming_events_without_context :
  ListUpcomingEvents_run Scenario.no_active_context Scenario.sample_config
    Scenario.sample_provider [] (tt, [])
  = (Ok (text_result "Google Calendar API Error: No active context found."),
     (tt, [])).
Proof. reflexivity. Qed.

(** *** The module body *)

(** C5: once the module is loaded the server holds exactly two tools,
    "list_upcoming_events" and "create_event", in that order: the tool
    that lists events of the primary calendar and the tool that creates
    one in it. *)
Theorem registered_tools (E : Externals) (env : environ) (m : Module_ E) :
  server_module E env = Ok m ->
  map (name E) (tools E (mcp E m)) = ["list_upcoming_events"; "create_event"]
  /\ tools E (mcp E m)
     = [ListUpcomingEvents E (config E m) (auth_provider E m);
        CreateEvent E (config E m) (auth_provider E m)]
  /\ map (description E) (tools E (mcp E m))
     = ["List upcoming events from the primary calendar.";
        "Create a new event in the primary calendar."].
Proof.
  unfold server_module, and_then.
  destruct (load_config (runtime E) env) as [cfg|e]; [|discriminate].
  intros H. inversion H; subst; clear H. simpl. repeat split.
Qed.

(** The module loaded in the sample environment. *)
Lemma registered_tools_witness :
  exists m,
    server_module Scenario.working_server Scenario.sample_environ = Ok m
    /\ map (name Scenario.working_server)
           (tools Scenario.working_server (mcp Scenario.working_server m))
       = ["list_upcoming_events"; "create_event"].
Proof.
  eexists. split; [reflexivity|].
  apply (registered_tools Scenario.working_server Scenario.sample_environ).
  reflexivity.
Defined.

Lemma py_int_error (rt : Runtime) (s : string) (e : exn) :
  py_int rt s = Raise e -> exn_type e = ValueError.
Proof.
  unfold py_int.
  destruct (match s with EmptyString => None | _ => digits_value 0 s end);
    [discriminate|].
  destruct (int_other rt s); [discriminate|].
  intros H. inversion H. reflexivity.
Qed.

Lemma py_int_error_text (rt : Runtime) (s : string) :
  py_int rt s <> Raise (Exn ValueError missing_env_message).
Proof.
  unfold py_int.
  destruct (match s with EmptyString => None | _ => digits_value 0 s end);
    [discriminate|].
  destruct (int_other rt s); discriminate.
Qed.

Lemma truthy_environ_get (env : environ) (k : string) :
  truthy (environ_get env k) = negb (missing_or_empty env k).
Proof.
  unfold environ_get, missing_or_empty.
  destruct (lookup k env); reflexivity.
Qed.

(** C7, as the code has it: the server raises a ValueError when
    GOOGLE_CLIENT_ID or GOOGLE_CLIENT_SECRET is missing or empty, the
    client raises one when OPENAI_API_KEY is missing or empty; when the
    required variables are present and not empty the client raises
    nothing, and the server does not raise the missing-variables error
    and raises nothing at all when its three numeric settings convert. *)
Theorem configuration_fail_fast (rt : Runtime) (env : environ) :
  (missing_or_empty env "GOOGLE_CLIENT_ID"
   || missing_or_empty env "GOOGLE_CLIENT_SECRET" = true ->
   exists e, Server.load_config rt env = Raise e /\ is_ValueError e = true)
  /\ (missing_or_empty env "OPENAI_API_KEY" = true ->
      Client.load_config env
      = Raise (Exn ValueError "OPENAI_API_KEY not found in.env"))
  /\ (missing_or_empty env "OPENAI_API_KEY" = false ->
      exists c, Client.load_config env = Ok c)
  /\ (missing_or_empty env "GOOGLE_CLIENT_ID"
      || missing_or_empty env "GOOGLE_CLIENT_SECRET" = false ->
      Server.load_config rt env <> Raise (Exn ValueError missing_env_message)
      /\ (raises (py_int rt (environ_get_default env "PORT" "8000")) = false ->
          raises (py_int rt (environ_get_default env "REDIS_PORT" "6379")) = false ->
          raises (py_int rt (environ_get_default env "REDIS_DB" "0")) = false ->
          exists c, Server.load_config rt env = Ok c)).
Proof.
  unfold Server.load_config, Client.load_config, py_all, forallb.
  rewrite !truthy_environ_get, andb_true_r.
  repeat split.
  - intros H.
    destruct (py_int rt (environ_get_default env "PORT" "8000")) eqn:H1.
    2:{ eexists; split; [reflexivity|].
        unfold is_ValueError. now rewrite (py_int_error _ _ _ H1). }
    destruct (py_int rt (environ_get_default env "REDIS_PORT" "6379")) eqn:H2.
    2:{ eexists; split; [reflexivity|].
        unfold is_ValueError. now rewrite (py_int_error _ _ _ H2). }
    destruct (py_int rt (environ_get_default env "REDIS_DB" "0")) eqn:H3.
    2:{ eexists; split; [reflexivity|].
        unfold is_ValueError. now rewrite (py_int_error _ _ _ H3). }
    rewrite <- negb_orb, H. simpl. eexists; split; reflexivity.
  - intros ->. reflexivity.
  - intros ->. simpl. eexists; reflexivity.
  - destruct (py_int rt (environ_get_default env "PORT" "8000")) eqn:H1.
    2:{ intros Heq. inversion Heq; subst. exact (py_int_error_text rt _ H1). }
    destruct (py_int rt (environ_get_default env "REDIS_PORT" "6379")) eqn:H2.
    2:{ intros Heq. inversion Heq; subst. exact (py_int_error_text rt _ H2). }
    destruct (py_int rt (environ_get_default env "REDIS_DB" "0")) eqn:H3.
    2:{ intros Heq. inversion Heq; subst. exact (py_int_error_text rt _ H3). }
    rewrite <- negb_orb, H. simpl. discriminate.
  - intros H1 H2 H3.
    destruct (py_int rt (environ_get_default env "PORT" "8000")); [|discriminate].
    destruct (py_int rt (environ_get_default env "REDIS_PORT" "6379"));
      [|discriminate].
    destruct (py_int rt (environ_get_default env "REDIS_DB" "0"));
      [|discriminate].
    rewrite <- negb_orb, H. simpl. eexists; reflexivity.
Qed.

(** C7, as stated, fails: with the three required variables present but
    two of them empty, server and client both raise the ValueError. *)
Lemma configuration_present_but_empty :
  let env := [("GOOGLE_CLIENT_ID", ""); ("GOOGLE_CLIENT_SECRET", "secret");
              ("OPENAI_API_KEY", "")] in
  (exists a b c,
      lookup "GOOGLE_CLIENT_ID" env = Some a
      /\ lookup "GOOGLE_CLIENT_SECRET" env = Some b
      /\ lookup "OPENAI_API_KEY" env = Some c)
  /\ Server.load_config Scenario.plain_runtime env
     = Raise (Exn ValueError missing_env_message)
  /\ Client.load_config env
     = Raise (Exn ValueError "OPENAI_API_KEY not found in.env").
Proof.
  split; [|split; reflexivity].
  do 3 eexists. repeat split; reflexivity.
Qed.

(** *** The functions on closed inputs *)

Example service_for_signed_in_user :
  get_calendar_service Scenario.working_server Scenario.sample_config
    Scenario.sample_provider Scenario.signed_in (tt, [])
  = (Ok (request_credentials Scenario.sample_config Scenario.sample_provider
           Scenario.signed_in),
     (tt, [EvBuild "calendar" "v3"
                   {| token := VStr "ya29.token";
                      refresh_token := VNone;
                      token_uri := VStr "https://oauth2.googleapis.com/token";
                      client_id := VStr "client-id";
                      client_secret := VStr "client-secret";
                      scopes := VList [VStr calendar_events_scope] |}
                   false])).
Proof. reflexivity. Qed.

Example service_without_request_context :
  get_calendar_service Scenario.working_server Scenario.sample_config
    Scenario.sample_provider
    {| request_context := VNone; session_id := Ok "session-1" |} (tt, [])
  = (Raise (Exn ToolError
                "System Authorization Failure: No active request context found."),
     (tt, [])).
Proof. reflexivity. Qed.

Example service_for_anonymous_user :
  fst (get_calendar_service Scenario.working_server Scenario.sample_config
         Scenario.sample_provider
         (Scenario.context_of
            (VObj "UnauthenticatedUser" [("is_authenticated", VBool false)]))
         (tt, []))
  = Raise (Exn ToolError
               "System Authorization Failure: No active authentication found. Please log in.").
Proof. reflexivity. Qed.

Example service_for_user_without_token :
  fst (get_calendar_service Scenario.working_server Scenario.sample_config
         Scenario.sample_provider
         (Scenario.context_of
            (VObj "AuthenticatedUser" [("is_authenticated", VBool true)]))
         (tt, []))
  = Raise (Exn ToolError
               "System Authorization Failure: Could not retrieve access token from user context.").
Proof. reflexivity. Qed.

Example load_config_sample :
  Server.load_config Scenario.plain_runtime Scenario.sample_environ
  = Ok Scenario.sample_config
  /\ Client.load_config [("OPENAI_API_KEY", "sk-test")] = Ok Scenario.client_config.
Proof. split; reflexivity. Qed.

Example load_config_bad_port :
  exists e,
    Server.load_config Scenario.plain_runtime
      (("PORT", "eighty") :: Scenario.sample_environ) = Raise e
    /\ exn_type e = ValueError.
Proof. eexists. split; reflexivity. Qed.

Example no_upcoming_events :
  let E := Scenario.server_externals (Ok Scenario.signed_in) None
             (Ok (VDict [("kind", VStr "calendar#events")]))
             (Ok Scenario.created_event) in
  fst (ListUpcomingEvents_run E Scenario.sample_config Scenario.sample_provider
         [("max_results", VInt 3)] (tt, []))
  = Ok (text_result "No upcoming events found.").
Proof. reflexivity. Qed.

Example create_event_link :
  CreateEvent_run Scenario.working_server Scenario.sample_config
    Scenario.sample_provider
    [("summary", VStr "Review"); ("start_time", VStr "2026-01-05T10:00:00Z");
     ("end_time", VStr "2026-01-05T11:00:00Z")] (tt, [])
  = (Ok (text_result
           "Event created successfully. Link: https://calendar.example/event/1"),
     (tt, [EvBuild "calendar" "v3"
                   (request_credentials Scenario.sample_config
                      Scenario.sample_provider Scenario.signed_in) false;
           EvEventsInsert "primary"
             (VDict [("summary", VStr "Review");
                     ("description", VStr "");
                     ("start", VDict [("dateTime", VStr "2026-01-05T10:00:00Z");
                                      ("timeZone", VStr "UTC")]);
                     ("end", VDict [("dateTime", VStr "2026-01-05T11:00:00Z");
                                    ("timeZone", VStr "UTC")])])])).
Proof. reflexivity. Qed.

Example event_without_start :
  fst (ListUpcomingEvents_run
         (Scenario.server_externals (Ok Scenario.signed_in) None
            (Ok (VDict [("items", VList [VDict [("summary", VStr "Floating")]])]))
            (Ok Scenario.created_event))
         Scenario.sample_config Scenario.sample_provider [] (tt, []))
  = Ok (text_result "Google Calendar API Error: 'start'").
Proof. reflexivity. Qed.

End ServerProps.

(** ** Properties of client.py *)

Module ClientProps.

Import Client ClientSpec.

Lemma convert_appends (mcp_tools : list MCPTool) :
  forall openai_tools,
    fold_left (fun acc tool => (acc ++ [openai_tool tool])%list) mcp_tools openai_tools
    = (openai_tools ++ map openai_tool mcp_tools)%list.
Proof.
  induction mcp_tools as [|tool rest IH]; intros openai_tools; simpl.
  - now rewrite app_nil_r.
  - rewrite IH, <- app_assoc. reflexivity.
Qed.

Lemma convert_is_map (mcp_tools : list MCPTool) :
  convert_mcp_to_openai_tools mcp_tools = map openai_tool mcp_tools.
Proof. unfold convert_mcp_to_openai_tools. now rewrite convert_appends. Qed.

(** C6: convert_mcp_to_openai_tools returns a list of the same length and
    order whose i-th element is a dict with "type" equal to "function" and
    a "function" entry made of the name, the description and the
    inputSchema of the i-th tool, unchanged. *)
Theorem convert_mcp_to_openai_tools_elements (mcp_tools : list MCPTool) :
  List.length (convert_mcp_to_openai_tools mcp_tools) = List.length mcp_tools
  /\ forall i,
      nth_error (convert_mcp_to_openai_tools mcp_tools) i
      = option_map
          (fun tool =>
             VDict [("type", VStr "function");
                    ("function",
                     VDict [("name", VStr (name tool));
                            ("description", description tool);
                            ("parameters", inputSchema tool)])])
          (nth_error mcp_tools i).
Proof.
  rewrite convert_is_map. split.
  - apply length_map.
  - intros i. apply nth_error_map.
Qed.

(** *** One turn of the chat loop *)

Lemma getattr_error (v : pyval) (attr : string) (e : exn) :
  getattr v attr = Raise e -> is_Exception e = true.
Proof.
  unfold getattr. destruct v; try (intros H; inversion H; reflexivity).
  destruct (lookup attr attrs); intros H; inversion H; reflexivity.
Qed.

Section Turn.

Variable E : Externals.
Variable mcp_client : McpClient E.
Variable openai_tools : list pyval.

Lemma run_tool_spec (name : string) (args : pyval) (st : St E) :
  uninterrupted E mcp_client ->
  let r := call_tool E mcp_client name args (world E st) in
  exists output,
    run_tool E mcp_client name args st
    = Some (Ok output,
            {| world := snd r;
               messages := messages E st;
               trace := (trace E st ++ [EvCallTool name args])%list |})
    /\ py_str (runtime E) output = output_text E (fst r).
Proof.
  intros Hun r. subst r.
  unfold run_tool, try_except, bind, external, lift, ret, output_text.
  pose proof (Hun name args (world E st)) as Hexn.
  destruct (call_tool E mcp_client name args (world E st)) as [[blocks|e] w];
    simpl in *.
  - destruct blocks as [|first others].
    + eexists; split; reflexivity.
    + destruct (getattr first "text") as [t|e] eqn:Hget.
      * eexists; split; reflexivity.
      * rewrite (getattr_error _ _ _ Hget). eexists; split; reflexivity.
  - rewrite (Hexn e eq_refl). eexists; split; reflexivity.
Qed.

Lemma execute_tool_calls_spec (calls : list ToolCall) :
  uninterrupted E mcp_client ->
  forallb (parses E) calls = true ->
  forall st,
    let done := executions E mcp_client calls (world E st) in
    execute_tool_calls E mcp_client calls st
    = Some (Ok tt,
            {| world := snd done;
               messages := (messages E st ++ tool_messages (fst done))%list;
               trace := (trace E st ++ call_events E calls)%list |}).
Proof.
  intros Hun.
  induction calls as [|tool_call rest IH]; intros Hparse st; simpl.
  - unfold ret. rewrite !app_nil_r. destruct st; reflexivity.
  - apply andb_true_iff in Hparse. destruct Hparse as [Hp Hrest].
    unfold bind at 1. unfold lift.
    unfold parses in Hp. unfold parsed_arguments.
    destruct (json_loads E (function_arguments tool_call)) as [args|e];
      [|discriminate].
    unfold bind at 1.
    destruct (run_tool_spec (function_name tool_call) args st Hun)
      as (output & Hrun & Hout).
    rewrite Hrun. unfold bind at 1. unfold append_message at 1. simpl.
    rewrite (IH Hrest). simpl. rewrite Hout, <- !app_assoc. reflexivity.
Qed.

(** C3, as the code has it: in a turn whose completion requests tool
    calls, when every call's argument text parses, no tool execution is
    interrupted and the final completion returns a choice, the client
    appends, in order, the assistant message, one "tool" message per
    requested call in the order of the calls with the call's id and
    name and the execution result as a text, and after them the content
    of a final completion as an assistant message; every requested call
    is executed exactly once, in order, and before the final completion
    is requested. *)
Theorem chat_turn_with_tool_calls (st : St E) (user_input : string)
        (w1 w2 w4 : World E) (response_msg final_msg : ChatCompletionMessage)
        (others rest : list ChatCompletionMessage) (calls : list ToolCall) :
  input E (newline ++ "User: ") (world E st) = (Ok user_input, w1) ->
  is_quit user_input = false ->
  chat_completions_create E "gpt-4o"
    (messages E st ++ [user_message user_input])%list
    (Some openai_tools) (Some "auto") w1
  = (Ok (response_msg :: others), w2) ->
  tool_calls response_msg = Some calls ->
  calls <> [] ->
  forallb (parses E) calls = true ->
  uninterrupted E mcp_client ->
  let done := executions E mcp_client calls w2 in
  let fed := (messages E st
                ++ [user_message user_input; Received response_msg]
                ++ tool_messages (fst done))%list in
  chat_completions_create E "gpt-4o" fed None None (snd done)
  = (Ok (final_msg :: rest), w4) ->
  chat_turn E mcp_client openai_tools st
  = Some (Ok Continue,
          {| world := w4;
             messages := (fed ++ [assistant_message (content final_msg)])%list;
             trace := (trace E st
                         ++ [EvInput;
                             EvCompletion "gpt-4o"
                               (messages E st ++ [user_message user_input])
                               (Some openai_tools) (Some "auto")]
                         ++ call_events E calls
                         ++ [EvCompletion "gpt-4o" fed None None])%list |})
     /\ List.length (fst done) = List.length calls
     /\ map fst (fst done) = calls
     /\ filter is_call (call_events E calls) = call_events E calls.
Proof.
  intros Hin Hquit Hfirst Hcalls Hne Hparse Hun done fed Hfinal.
  split.
  - unfold chat_turn, try_except.
    unfold bind at 1. unfold external at 1. rewrite Hin. cbv beta iota.
    rewrite Hquit.
    unfold bind at 1. unfold append_message at 1. cbv beta iota.
    unfold bind at 1. unfold completion at 1.
    unfold bind at 1. unfold get_messages at 1. cbv beta iota.
    unfold external at 1. cbn [world messages trace].
    rewrite Hfirst. cbv beta iota.
    unfold bind at 1. unfold lift at 1. cbn [first_choice].
    unfold requested_calls. rewrite Hcalls.
    destruct calls as [|tool_call more]; [contradiction|].
    unfold bind at 1. unfold append_message at 1. cbv beta iota.
    cbn [world messages trace].
    unfold bind at 1.
    rewrite (execute_tool_calls_spec (tool_call :: more) Hun Hparse).
    cbv beta iota zeta. cbn [world messages trace].
    unfold bind at 1. unfold completion at 1.
    unfold bind at 1. unfold get_messages at 1. cbv beta iota.
    unfold external at 1. cbn [world messages trace].
    subst fed done. rewrite <- !app_assoc in *. cbn [app] in *.
    rewrite Hfinal. cbv beta iota.
    unfold bind at 1. unfold lift at 1. cbn [first_choice].
    unfold bind at 1. unfold append_message at 1. cbv beta iota.
    cbn [world messages trace]. unfold ret.
    rewrite <- !app_assoc. cbn [app]. reflexivity.
  - subst done. clear. repeat split.
    + generalize w2. induction calls as [|c cs IH]; intros w; simpl;
        [reflexivity|now rewrite IH].
    + generalize w2. induction calls as [|c cs IH]; intros w; simpl;
        [reflexivity|now rewrite IH].
    + induction calls as [|c cs IH]; simpl; [reflexivity|now rewrite IH].
Qed.

End Turn.

(** A turn with one well-formed call: four messages are appended and the
    call is executed once, between the two completions. *)
Lemma chat_turn_with_tool_calls_witness :
  let E := Scenario.client_externals "What is planned today?"
             [Scenario.list_call] (fun _ => Ok tt) in
  let tools := convert_mcp_to_openai_tools [Scenario.remote_tool] in
  let asked := user_message "What is planned today?" in
  let response_msg := {| content := VNone;
                         tool_calls := Some [Scenario.list_call] |} in
  let fed := [asked; Received response_msg;
              Dict [("tool_call_id", VStr "call_1");
                    ("role", VStr "tool");
                    ("name", VStr "list_upcoming_events");
                    ("content", VStr "No upcoming events found.")]] in
  chat_turn E tt tools (Scenario.fresh E 0)
  = Some (Ok Continue,
          Scenario.state_of E 0
            (fed ++ [Dict [("role", VStr "assistant");
                           ("content", VStr "Nothing is planned.")]])%list
            [EvInput;
             EvCompletion "gpt-4o" [asked] (Some tools) (Some "auto");
             EvCallTool "list_upcoming_events" (VDict []);
             EvCompletion "gpt-4o" fed None None]).
Proof.
  intros E tools asked response_msg fed.
  refine (proj1 (chat_turn_with_tool_calls E tt tools (Scenario.fresh E 0)
                   "What is planned today?" (0 : World E) (0 : World E)
                   (0 : World E) response_msg
                   {| content := VStr "Nothing is planned."; tool_calls := None |}
                   [] [] [Scenario.list_call]
                   eq_refl eq_refl eq_refl eq_refl _ eq_refl _ eq_refl)).
  - discriminate.
  - intros name args w e H. discriminate H.
Defined.

(** C3, as stated, fails: when the argument text of the first requested
    call does not parse, the turn ends with the assistant message alone:
    no call is executed, not even the well-formed second one, no "tool"
    message is appended and no final completion is requested. *)
Lemma chat_turn_cut_arguments :
  let E := Scenario.client_externals "Plan a review"
             [Scenario.cut_call; Scenario.list_call] (fun _ => Ok tt) in
  let tools := convert_mcp_to_openai_tools [Scenario.remote_tool] in
  let asked := user_message "Plan a review" in
  let response_msg :=
    {| content := VNone;
       tool_calls := Some [Scenario.cut_call; Scenario.list_call] |} in
  chat_turn E tt tools (Scenario.fresh E 0)
  = Some (Ok Continue,
          Scenario.state_of E 0
            [asked; Received response_msg]
            [EvInput;
             EvCompletion "gpt-4o" [asked] (Some tools) (Some "auto")]).
Proof. reflexivity. Qed.

(** *** Connection attempts *)

Lemma attempts_made_app (a b : list event) :
  attempts_made (a ++ b) = attempts_made a + attempts_made b.
Proof. unfold attempts_made. now rewrite filter_app, length_app. Qed.

Section Attempts.

Variable E : Externals.

Lemma at_most_weaken {A : Type} (n n' : nat) (m : M E A) :
  at_most E n m -> n <= n' -> at_most E n' m.
Proof.
  intros Hm Hle st r st' Hrun.
  destruct (Hm st r st' Hrun) as (made & Htr & Hn).
  exists made. split; [assumption|lia].
Qed.

Lemma at_most_ret {A : Type} (a : A) : at_most E 0 (ret E a).
Proof.
  intros st r st' H. inversion H; subst.
  exists []. now rewrite app_nil_r.
Qed.

Lemma at_most_raise {A : Type} (e : exn) : at_most E 0 (@raise E A e).
Proof.
  intros st r st' H. inversion H; subst.
  exists []. now rewrite app_nil_r.
Qed.

Lemma at_most_lift {A : Type} (x : result A) : at_most E 0 (lift E x).
Proof.
  intros st r st' H. inversion H; subst.
  exists []. now rewrite app_nil_r.
Qed.

Lemma at_most_append (m : message) : at_most E 0 (append_message E m).
Proof.
  intros st r st' H. inversion H; subst.
  exists []. simpl. now rewrite app_nil_r.
Qed.

Lemma at_most_reset : at_most E 0 (reset_messages E).
Proof.
  intros st r st' H. inversion H; subst.
  exists []. simpl. now rewrite app_nil_r.
Qed.

Lemma at_most_get : at_most E 0 (get_messages E).
Proof.
  intros st r st' H. inversion H; subst.
  exists []. now rewrite app_nil_r.
Qed.

Lemma at_most_external {A : Type} (ev : event)
      (f : World E -> result A * World E) :
  at_most E (if starts_attempt ev then 1 else 0) (external E ev f).
Proof.
  intros st r st' H. unfold external in H.
  destruct (f (world E st)) as [x w]. inversion H; subst.
  exists [ev]. split; [reflexivity|].
  unfold attempts_made. simpl. destruct (starts_attempt ev); simpl; lia.
Qed.

Lemma at_most_bind {A B : Type} (a b : nat) (m : M E A) (k : A -> M E B) :
  at_most E a m -> (forall x, at_most E b (k x)) -> at_most E (a + b) (bind E m k).
Proof.
  intros Hm Hk st r st' Hrun. unfold bind in Hrun.
  destruct (m st) as [[[x|e] st1]|] eqn:Hmst; [| |discriminate].
  - destruct (Hm st _ _ Hmst) as (made1 & Ht1 & Hn1).
    destruct (Hk x st1 r st' Hrun) as (made2 & Ht2 & Hn2).
    exists (made1 ++ made2)%list. rewrite Ht2, Ht1, app_assoc.
    split; [reflexivity|]. rewrite attempts_made_app. lia.
  - inversion Hrun; subst.
    destruct (Hm st _ _ Hmst) as (made1 & Ht1 & Hn1).
    exists made1. split; [assumption|lia].
Qed.

Lemma at_most_try_except {A : Type} (a b : nat) (catches : exn -> bool)
      (m : M E A) (h : exn -> M E A) :
  at_most E a m -> (forall e, at_most E b (h e)) ->
  at_most E (a + b) (try_except E catches m h).
Proof.
  intros Hm Hh st r st' Hrun. unfold try_except in Hrun.
  destruct (m st) as [[[x|e] st1]|] eqn:Hmst; [| |discriminate].
  - inversion Hrun; subst.
    destruct (Hm st _ _ Hmst) as (made1 & Ht1 & Hn1).
    exists made1. split; [assumption|lia].
  - destruct (Hm st _ _ Hmst) as (made1 & Ht1 & Hn1).
    destruct (catches e).
    + destruct (Hh e st1 r st' Hrun) as (made2 & Ht2 & Hn2).
      exists (made1 ++ made2)%list. rewrite Ht2, Ht1, app_assoc.
      split; [reflexivity|]. rewrite attempts_made_app. lia.
    + inversion Hrun; subst. exists made1. split; [assumption|lia].
Qed.

Lemma at_most_async_with {R A : Type} (a b c : nat) (enter : M E R)
      (exit : R -> M E unit) (body : R -> M E A) :
  at_most E a enter -> (forall x, at_most E b (body x)) ->
  (forall x, at_most E c (exit x)) ->
  at_most E (a + b + c) (async_with E enter exit body).
Proof.
  intros He Hb Hx st r st' Hrun. unfold async_with in Hrun.
  destruct (enter st) as [[[x|e] st1]|] eqn:Hent; [| |discriminate].
  - destruct (He st _ _ Hent) as (made1 & Ht1 & Hn1).
    destruct (body x st1) as [[outcome st2]|] eqn:Hbody; [|discriminate].
    destruct (Hb x st1 _ _ Hbody) as (made2 & Ht2 & Hn2).
    destruct (exit x st2) as [[[u|e'] st3]|] eqn:Hexit; [| |discriminate];
      destruct (Hx x st2 _ _ Hexit) as (made3 & Ht3 & Hn3);
      inversion Hrun; subst;
      exists (made1 ++ made2 ++ made3)%list;
      rewrite Ht3, Ht2, Ht1, <- !app_assoc;
      (split; [reflexivity|]); rewrite !attempts_made_app; lia.
  - inversion Hrun; subst.
    destruct (He st _ _ Hent) as (made1 & Ht1 & Hn1).
    exists made1. split; [assumption|lia].
Qed.

End Attempts.

Ltac trace_step E :=
  match goal with
  | |- at_most _ 0 (ret _ _) => apply at_most_ret
  | |- at_most _ 0 (raise _ _) => apply at_most_raise
  | |- at_most _ 0 (lift _ _) => apply at_most_lift
  | |- at_most _ 0 (append_message _ _) => apply at_most_append
  | |- at_most _ 0 (reset_messages _) => apply at_most_reset
  | |- at_most _ 0 (get_messages _) => apply at_most_get
  | |- at_most _ 0 (external _ ?ev ?f) => exact (at_most_external E ev f)
  | |- at_most _ 0 (file_system _ ?ev ?f) =>
      exact (at_most_external E ev (fun w => (Ok tt, f w)))
  | |- at_most _ 0 (bind _ _ _) => apply (at_most_bind E 0 0); [|intros ?]
  | |- at_most _ 0 (try_except _ _ _ _) =>
      apply (at_most_try_except E 0 0); [|intros ?]
  | |- at_most _ 0 (async_with _ _ _ _) =>
      apply (at_most_async_with E 0 0 0); [|intros ?|intros ?]
  | |- at_most _ 0 (if ?b then _ else _) => destruct b
  | |- at_most _ 0 (match ?x with _ => _ end) => destruct x
  end.

Section Retry.

Variable E : Externals.
Variable cfg : Config.

Lemma execute_tool_calls_quiet (mcp_client : McpClient E)
      (calls : list ToolCall) :
  at_most E 0 (execute_tool_calls E mcp_client calls).
Proof.
  induction calls as [|tool_call rest IH]; simpl.
  - apply at_most_ret.
  - unfold run_tool. repeat trace_step E. exact IH.
Qed.

Lemma chat_turn_quiet (mcp_client : McpClient E) (openai_tools : list pyval) :
  at_most E 0 (chat_turn E mcp_client openai_tools).
Proof.
  unfold chat_turn, completion.
  repeat (trace_step E || apply execute_tool_calls_quiet).
Qed.

Lemma chat_loop_quiet (mcp_client : McpClient E) (openai_tools : list pyval)
      (fuel : nat) :
  at_most E 0 (chat_loop E mcp_client openai_tools fuel).
Proof.
  induction fuel as [|n IH]; simpl.
  - intros st r st' H. discriminate.
  - apply (at_most_bind E 0 0); [apply chat_turn_quiet|].
    intros next. destruct next; [exact IH|apply at_most_ret].
Qed.

Lemma session_quiet (fuel : nat) (disk_store : DiskStore E) :
  at_most E 0 (session E cfg fuel disk_store).
Proof.
  unfold session.
  repeat (trace_step E || apply chat_loop_quiet).
Qed.

Lemma clear_storage_quiet (storage_dir : path) :
  at_most E 0 (clear_storage E storage_dir).
Proof.
  intros st r st' H. unfold clear_storage in H.
  destruct (path_exists E storage_dir (world E st)).
  - revert H. generalize st r st'.
    change (at_most E 0
              (bind E (file_system E (EvRmtree storage_dir) (rmtree E storage_dir))
                    (fun _ => file_system E (EvMkdir storage_dir)
                                          (mkdir E storage_dir)))).
    repeat trace_step E.
  - exact (at_most_ret E tt st r st' H).
Qed.

Lemma attempt_once_single (fuel : nat) (storage_dir : path) (attempt : nat) :
  at_most E 1 (attempt_once E cfg fuel storage_dir attempt).
Proof.
  unfold attempt_once.
  apply (at_most_bind E 1 0).
  - exact (at_most_external E (EvDiskStore storage_dir) _).
  - intros disk_store.
    apply (at_most_try_except E 0 0); [apply session_quiet|].
    intros e. apply (at_most_bind E 0 0); [apply clear_storage_quiet|].
    intros _. destruct (attempt =? max_retries - 1)%nat;
      [apply at_most_raise|apply at_most_ret].
Qed.

Lemma attempts_bounded (fuel : nat) (storage_dir : path)
      (remaining : list nat) :
  at_most E (List.length remaining)
          (attempts E cfg fuel storage_dir remaining).
Proof.
  induction remaining as [|attempt rest IH]; simpl.
  - apply at_most_ret.
  - apply (at_most_bind E 1 (List.length rest));
      [apply attempt_once_single|].
    intros next. destruct next; [exact IH|].
    apply (at_most_weaken E 0); [apply at_most_ret|lia].
Qed.

Lemma async_with_ok {R A : Type} (enter : M E R) (exit : R -> M E unit)
      (body : R -> M E A) (st st' : St E) (a : A) :
  async_with E enter exit body st = Some (Ok a, st') ->
  exists x st1 st2, body x st1 = Some (Ok a, st2).
Proof.
  unfold async_with.
  destruct (enter st) as [[[x|e] st1]|]; try discriminate.
  destruct (body x st1) as [[outcome st2]|] eqn:Hbody; try discriminate.
  destruct (exit x st2) as [[[u|e] st3]|]; try discriminate.
  intros H. inversion H; subst. now exists x, st1, st2.
Qed.

Lemma bind_ok {A B : Type} (m : M E A) (k : A -> M E B) (st st' : St E) (b : B) :
  bind E m k st = Some (Ok b, st') ->
  exists x st1, m st = Some (Ok x, st1) /\ k x st1 = Some (Ok b, st').
Proof.
  unfold bind.
  destruct (m st) as [[[x|e] st1]|]; try discriminate.
  intros H. now exists x, st1.
Qed.

Lemma session_returns (fuel : nat) (disk_store : DiskStore E)
      (st st' : St E) (f : flow) :
  session E cfg fuel disk_store st = Some (Ok f, st') -> f = Return.
Proof.
  unfold session. intros H.
  apply async_with_ok in H. destruct H as (u & st1 & st2 & H).
  apply async_with_ok in H. destruct H as (mcp_client & st3 & st4 & H).
  apply bind_ok in H. destruct H as (mcp_tools & st5 & _ & H).
  apply bind_ok in H. destruct H as (u1 & st6 & _ & H).
  apply bind_ok in H. destruct H as (u2 & st7 & _ & H).
  inversion H. reflexivity.
Qed.

Lemma clear_storage_run (storage_dir : path) (st : St E) :
  clear_storage E storage_dir st = Some (Ok tt, tidied E storage_dir st).
Proof.
  unfold clear_storage, tidied, cleared, file_system, external, bind, ret.
  destruct (path_exists E storage_dir (world E st)); simpl;
    [now rewrite <- app_assoc|reflexivity].
Qed.

(** One pass of the [for] loop in terms of the connection sequence. *)
Lemma attempt_once_run (fuel : nat) (storage_dir : path) (attempt : nat)
      (st : St E) :
  attempt_once E cfg fuel storage_dir attempt st
  = match connection_sequence E cfg fuel storage_dir st with
    | Diverged _ => None
    | Finished _ s1 => Some (Ok Return, s1)
    | Failed _ e s1 => Some (Raise e, s1)
    | Rejected _ e s1 =>
        if (attempt =? max_retries - 1)%nat
        then Some (Raise e, tidied E storage_dir s1)
        else Some (Ok Continue, tidied E storage_dir s1)
    end.
Proof.
  unfold attempt_once, connection_sequence.
  unfold bind at 1.
  destruct (external E (EvDiskStore storage_dir) (DiskStore_init E storage_dir) st)
    as [[[disk_store|e] s]|]; try reflexivity.
  unfold try_except.
  destruct (session E cfg fuel disk_store s) as [[[f|e] s1]|] eqn:Hs;
    try reflexivity.
  - now rewrite (session_returns _ _ _ _ _ Hs).
  - destruct (is_ClientNotFoundError e); [|reflexivity].
    unfold bind. rewrite clear_storage_run.
    destruct (attempt =? max_retries - 1)%nat; reflexivity.
Qed.

(** What the outcomes of a connection attempt stand for. *)
Lemma connection_sequence_rejected (fuel : nat) (storage_dir : path)
      (st s1 : St E) (e : exn) :
  connection_sequence E cfg fuel storage_dir st = Rejected E e s1 ->
  is_ClientNotFoundError e = true
  /\ exists disk_store s0,
      external E (EvDiskStore storage_dir) (DiskStore_init E storage_dir) st
      = Some (Ok disk_store, s0)
      /\ session E cfg fuel disk_store s0 = Some (Raise e, s1).
Proof.
  unfold connection_sequence.
  destruct (external E (EvDiskStore storage_dir) (DiskStore_init E storage_dir) st)
    as [[[disk_store|e0] s0]|]; try discriminate.
  destruct (session E cfg fuel disk_store s0) as [[[f|e1] s2]|] eqn:Hs;
    try discriminate.
  destruct (is_ClientNotFoundError e1) eqn:Hc; try discriminate.
  intros H. inversion H; subst. split; [assumption|].
  exists disk_store, s0. split; [reflexivity|assumption].
Qed.

Lemma connection_sequence_failed (fuel : nat) (storage_dir : path)
      (st s1 : St E) (e : exn) :
  connection_sequence E cfg fuel storage_dir st = Failed E e s1 ->
  external E (EvDiskStore storage_dir) (DiskStore_init E storage_dir) st
  = Some (Raise e, s1)
  \/ is_ClientNotFoundError e = false.
Proof.
  unfold connection_sequence.
  destruct (external E (EvDiskStore storage_dir) (DiskStore_init E storage_dir) st)
    as [[[disk_store|e0] s0]|]; try discriminate.
  - destruct (session E cfg fuel disk_store s0) as [[[f|e1] s2]|];
      try discriminate.
    destruct (is_ClientNotFoundError e1) eqn:Hc; try discriminate.
    intros H. inversion H; subst. right. assumption.
  - intros H. inversion H; subst. left. reflexivity.
Qed.

(** The two passes of the loop, written out. *)
Lemma run_chat_loop_run (fuel : nat) (profile : string) (st : St E) :
  let storage_dir := [".client_storage"; profile] in
  run_chat_loop E cfg fuel profile st
  = match connection_sequence E cfg fuel storage_dir (started E storage_dir st) with
    | Diverged _ => None
    | Finished _ s1 => Some (Ok tt, s1)
    | Failed _ e1 s1 => Some (Raise e1, s1)
    | Rejected _ e1 s1 =>
        match connection_sequence E cfg fuel storage_dir
                (tidied E storage_dir s1) with
        | Diverged _ => None
        | Finished _ s2 => Some (Ok tt, s2)
        | Failed _ e2 s2 => Some (Raise e2, s2)
        | Rejected _ e2 s2 => Some (Raise e2, tidied E storage_dir s2)
        end
    end.
Proof.
  intros storage_dir. unfold run_chat_loop. fold storage_dir.
  unfold bind at 1. unfold file_system, external.
  fold (started E storage_dir st).
  cbn [seq max_retries attempts].
  unfold bind at 1. rewrite attempt_once_run.
  destruct (connection_sequence E cfg fuel storage_dir
              (started E storage_dir st)) as [|s1|e1 s1|e1 s1];
    try reflexivity.
  cbn [Nat.eqb max_retries Nat.sub].
  unfold bind at 1. rewrite attempt_once_run.
  destruct (connection_sequence E cfg fuel storage_dir
              (tidied E storage_dir s1)) as [|s2|e2 s2|e2 s2];
    reflexivity.
Qed.

(** C2: the client starts at most two connection attempts.  A session
    that ends, or any error other than a ClientNotFoundError leaving the
    [try] block, ends the run at once.  On a ClientNotFoundError from
    the connection the storage directory is deleted and recreated and
    the whole connection sequence is run once more from there, whose
    outcome is the outcome of the run: a ClientNotFoundError of the
    second attempt is raised to the caller. *)
Theorem run_chat_loop_retries_once (fuel : nat) (profile : string) (st : St E) :
  let storage_dir := [".client_storage"; profile] in
  let run := run_chat_loop E cfg fuel profile st in
  at_most E 2 (run_chat_loop E cfg fuel profile)
  /\ match connection_sequence E cfg fuel storage_dir (started E storage_dir st) with
     | Diverged _ => run = None
     | Finished _ s1 => run = Some (Ok tt, s1)
     | Failed _ e1 s1 => run = Some (Raise e1, s1)
     | Rejected _ e1 s1 =>
         (path_exists E storage_dir (world E s1) = true ->
          tidied E storage_dir s1 = cleared E storage_dir s1)
         /\ match connection_sequence E cfg fuel storage_dir
                    (tidied E storage_dir s1) with
            | Diverged _ => run = None
            | Finished _ s2 => run = Some (Ok tt, s2)
            | Failed _ e2 s2 => run = Some (Raise e2, s2)
            | Rejected _ e2 s2 =>
                run = Some (Raise e2, tidied E storage_dir s2)
            end
     end.
Proof.
  intros storage_dir run. split.
  - unfold run_chat_loop.
    apply (at_most_bind E 0 2).
    + exact (at_most_external E (EvMkdir _) (fun w => (Ok tt, mkdir E _ w))).
    + intros _. apply (attempts_bounded fuel _ (seq 0 max_retries)).
  - subst run. rewrite run_chat_loop_run. fold storage_dir.
    destruct (connection_sequence E cfg fuel storage_dir
                (started E storage_dir st)) as [|s1|e1 s1|e1 s1];
      try reflexivity.
    split.
    { intros Hex. unfold tidied. now rewrite Hex. }
    destruct (connection_sequence E cfg fuel storage_dir
                (tidied E storage_dir s1)) as [|s2|e2 s2|e2 s2];
      reflexivity.
Qed.

(** The chat loop itself lets no exception out but those that are
    neither a KeyboardInterrupt nor an Exception. *)
Lemma chat_turn_catches (mcp_client : McpClient E) (openai_tools : list pyval)
      (st st' : St E) (e : exn) :
  chat_turn E mcp_client openai_tools st = Some (Raise e, st') ->
  is_KeyboardInterrupt e || is_Exception e = false.
Proof.
  unfold chat_turn, try_except.
  match goal with
  | |- context [match ?m st with _ => _ end] => destruct (m st) as [[[f|e0] s]|]
  end; try discriminate.
  destruct (is_KeyboardInterrupt e0 || is_Exception e0) eqn:Hc.
  - destruct (is_KeyboardInterrupt e0); discriminate.
  - intros H. inversion H; subst. exact Hc.
Qed.

End Retry.

(** A rejected first connection, then a session in which the user types
    "quit": the directory is cleared between the two attempts and the run
    ends normally. *)
Lemma run_chat_loop_retry_example :
  let E := Scenario.client_externals "quit" [] Scenario.rejected_once in
  let dir := [".client_storage"; "default"] in
  run_chat_loop E Scenario.client_config 1 "default" (Scenario.fresh E 0)
  = Some (Ok tt,
          Scenario.state_of E 2 []
            [EvMkdir dir;
             EvDiskStore dir; EvStoreEnter; EvClientEnter default_server_url;
             EvStoreExit;
             EvRmtree dir; EvMkdir dir;
             EvDiskStore dir; EvStoreEnter; EvClientEnter default_server_url;
             EvListTools; EvInput; EvClientExit; EvStoreExit]).
Proof. reflexivity. Qed.

(** Another error of the connection is not retried: one attempt, and the
    error reaches the caller. *)
Lemma run_chat_loop_connection_refused :
  let refusal := Exn (OtherException "ConnectError") "All connection attempts failed" in
  let E := Scenario.client_externals "quit" [] (fun _ => Raise refusal) in
  let dir := [".client_storage"; "default"] in
  run_chat_loop E Scenario.client_config 1 "default" (Scenario.fresh E 0)
  = Some (Raise refusal,
          Scenario.state_of E 1 []
            [EvMkdir dir;
             EvDiskStore dir; EvStoreEnter; EvClientEnter default_server_url;
             EvStoreExit]).
Proof. reflexivity. Qed.

(** The server rejecting both connections: the second error reaches the
    caller. *)
Lemma run_chat_loop_rejected_twice :
  let E := Scenario.client_externals "quit" []
             (fun _ => Raise (Exn ClientNotFoundError "Client not found")) in
  fst_outcome (run_chat_loop E Scenario.client_config 1 "default"
                             (Scenario.fresh E 0))
  = Some (Raise (Exn ClientNotFoundError "Client not found"))
  /\ option_map (fun out => attempts_made (trace E (snd out)))
                (run_chat_loop E Scenario.client_config 1 "default"
                               (Scenario.fresh E 0))
     = Some 2.
Proof. split; reflexivity. Qed.

End ClientProps.

(** ** The runtime operations on sample inputs *)

Module PyProps.

Example replace_utc_offset :
  replace "+00:00" "Z" "2026-01-05T10:00:00.5+00:00" = "2026-01-05T10:00:00.5Z".
Proof. reflexivity. Qed.

Example py_int_default_port (rt : Runtime) : py_int rt "8000" = Ok 8000%Z.
Proof. reflexivity. Qed.

Example join_three : join ", " ["a"; "b"; "c"] = "a, b, c".
Proof. reflexivity. Qed.

Example quit_any_case :
  Client.is_quit "QUIT" = true /\ Client.is_quit "Exit" = true
  /\ Client.is_quit "quit now" = false.
Proof. repeat split. Qed.

Example str_of_values (rt : Runtime) :
  py_str rt VNone = "None" /\ py_str rt (VInt (-12)) = "-12"
  /\ py_str rt (VBool true) = "True".
Proof. repeat split. Qed.

End PyProps.

(** ** Further properties of server.py *)

Module ServerExtra.

Import Server ServerSpec.

Ltac run_m :=
  unfold try_except_binding; unfold bind, lift, ret, raise, try_except, external.

(** X1: whatever get_calendar_service raises is either no Exception at all
    (it came out of [build] and is passed on) or a ToolError whose text
    starts with "System Authorization Failure: ": the three refusals of the
    body are wrapped by the handler like any other error. *)
Theorem service_error_is_wrapped (E : Externals) (cfg : Config)
        (auth_provider : pyval) (ctx : Context) (st : St E) :
  match fst (get_calendar_service E cfg auth_provider ctx st) with
  | Ok _ => refused ctx = false
  | Raise e =>
      is_Exception e = false
      \/ (exn_type e = ToolError
          /\ startswith "System Authorization Failure: " (exn_str e) = true)
  end.
Proof.
  destruct (refused ctx) eqn:Href.
  - destruct (ServerProps.service_refused E cfg auth_provider ctx st Href)
      as [reason Hr].
    rewrite Hr. simpl. right. split; reflexivity.
  - rewrite (ServerProps.service_accepted E cfg auth_provider ctx st Href).
    simpl. unfold wrapped.
    destruct (fst (build E _ _ _ _ _)) as [svc|e0]; [reflexivity|].
    destruct (is_Exception e0) eqn:He0.
    + right. split; reflexivity.
    + left. exact He0.
Qed.

(** X2: a request that is refused (no context, no authenticated user, no
    token) reaches no external call: [build] is not called and the state is
    left as it was. *)
Theorem refused_request_has_no_effect (E : Externals) (cfg : Config)
        (auth_provider : pyval) (ctx : Context) (st : St E) :
  refused ctx = true ->
  snd (get_calendar_service E cfg auth_provider ctx st) = st.
Proof.
  intros Href.
  destruct (ServerProps.service_refused E cfg auth_provider ctx st Href)
    as [reason Hr].
  now rewrite Hr.
Qed.

Lemma refused_request_has_no_effect_witness :
  snd (get_calendar_service Scenario.working_server Scenario.sample_config
         Scenario.sample_provider
         (Scenario.context_of
            (VObj "UnauthenticatedUser" [("is_authenticated", VBool false)]))
         (tt, []))
  = (tt, []).
Proof.
  apply (refused_request_has_no_effect Scenario.working_server). reflexivity.
Defined.

(** X3: the nested token wins and there is no falling back: when the user
    object has [access_token.token], that value is the token even when it
    is empty, so the request is refused whatever [user.token] holds. *)
Theorem empty_nested_token_is_refused (E : Externals) (cfg : Config)
        (auth_provider : pyval) (ctx : Context) (user nested flag t : pyval)
        (st : St E) :
  truthy (request_context ctx) = true ->
  request_user ctx = Some user ->
  getattr user "is_authenticated" = Ok flag ->
  truthy flag = true ->
  getattr user "access_token" = Ok nested ->
  getattr nested "token" = Ok t ->
  truthy t = false ->
  get_calendar_service E cfg auth_provider ctx st
  = (Raise (Exn ToolError
                "System Authorization Failure: Could not retrieve access token from user context."),
     st).
Proof.
  unfold request_user, get_calendar_service.
  destruct ctx as [rc sid]; simpl.
  intros Hrc Huser Hflag Htrue Hnested Htoken Hfalse.
  run_m. rewrite Hrc. simpl.
  destruct (getattr rc "request") as [request_obj|e0]; [|discriminate].
  simpl.
  assert (Hhas : hasattr request_obj "user" = true).
  { unfold hasattr, getattr in *. destruct request_obj; try discriminate.
    destruct (lookup "user" attrs); [reflexivity|discriminate]. }
  rewrite Hhas. simpl.
  destruct (getattr request_obj "user") as [u|e0]; [|discriminate].
  inversion Huser; subst u. simpl. rewrite Hflag. simpl. rewrite Htrue. simpl.
  rewrite ServerProps.extract_access_token_spec.
  unfold access_token_of. rewrite Hnested, Htoken, Hfalse. reflexivity.
Qed.

Lemma empty_nested_token_is_refused_witness :
  get_calendar_service Scenario.working_server Scenario.sample_config
    Scenario.sample_provider
    (Scenario.context_of Scenario.user_with_empty_nested_token) (tt, [])
  = (Raise (Exn ToolError
                "System Authorization Failure: Could not retrieve access token from user context."),
     (tt, [])).
Proof.
  apply (empty_nested_token_is_refused Scenario.working_server
           Scenario.sample_config Scenario.sample_provider
           (Scenario.context_of Scenario.user_with_empty_nested_token)
           Scenario.user_with_empty_nested_token
           (VObj "AccessToken" [("token", VStr "")]) (VBool true) (VStr ""));
    reflexivity.
Defined.

(** *** The two tools *)

Lemma event_line_raises_exception (E : Externals) (event : pyval) (e : exn) :
  event_line E event = Raise e -> is_Exception e = true.
Proof.
  unfold event_line, and_then, subscript, method_get.
  destruct event; try (intros H; inversion H; reflexivity).
  destruct (lookup "start" d) as [start|]; [|intros H; inversion H; reflexivity].
  destruct start; intros H; inversion H; reflexivity.
Qed.

Lemma format_events_raises_exception (E : Externals) (items : list pyval) :
  forall acc e, format_events E items acc = Raise e -> is_Exception e = true.
Proof.
  induction items as [|event rest IH]; intros acc e; simpl.
  - discriminate.
  - unfold and_then.
    destruct (event_line E event) as [line|e1] eqn:Hline.
    + apply IH.
    + intros H. inversion H; subst.
      exact (event_line_raises_exception E event e Hline).
Qed.

Lemma render_events_raises_exception (E : Externals) (r : pyval) (e : exn) :
  render_events E r = Raise e -> is_Exception e = true.
Proof.
  unfold render_events, and_then, method_get.
  destruct r; try (intros H; inversion H; reflexivity).
  destruct (truthy (dict_get d "items" (VList []))); simpl; [|discriminate].
  destruct (iterate (dict_get d "items" (VList []))) as [items|e0] eqn:Hit.
  - destruct (format_events E items ["Upcoming events:"]) as [ls|e1] eqn:Hf;
      [discriminate|].
    intros H. inversion H; subst.
    exact (format_events_raises_exception E items _ e Hf).
  - intros H. inversion H; subst.
    unfold iterate in Hit.
    destruct (dict_get d "items" (VList [])); inversion Hit; reflexivity.
Qed.

(** X4: list_upcoming_events lets no Exception out: whatever Exception the
    context lookup, the service construction, the session id, the API call
    or the formatting raises comes back as the text "Google Calendar API
    Error: " followed by the text of the exception, the state being as the
    failing step left it. *)
Theorem list_upcoming_events_reports_errors (E : Externals) (cfg : Config)
        (auth_provider : pyval) (arguments : list (string * pyval)) (st : St E) :
  let out := ListUpcomingEvents_run E cfg auth_provider arguments st in
  match query_events E cfg auth_provider arguments st with
  | (Raise e, st') =>
      if is_Exception e
      then out = (Ok (text_result ("Google Calendar API Error: " ++ exn_str e)), st')
      else out = (Raise e, st')
  | (Ok r, st') =>
      match render_events E r with
      | Ok answer => out = (Ok answer, st')
      | Raise e =>
          out = (Ok (text_result ("Google Calendar API Error: " ++ exn_str e)), st')
      end
  end.
Proof.
  intros out. subst out. unfold ListUpcomingEvents_run. run_m.
  destruct (query_events E cfg auth_provider arguments st) as [[r|e] st'].
  - destruct (render_events E r) as [answer|e] eqn:Hr; [reflexivity|].
    now rewrite (render_events_raises_exception E r e Hr).
  - destruct (is_Exception e); reflexivity.
Qed.

(** X5: list_upcoming_events only reads: in any run it sends at most one
    list query, always to the primary calendar, expanded into single events
    ordered by start time, and never an insert. *)
Theorem list_upcoming_events_only_reads (E : Externals) (cfg : Config)
        (auth_provider : pyval) (arguments : list (string * pyval)) (st : St E) :
  exists made,
    snd (snd (ListUpcomingEvents_run E cfg auth_provider arguments st))
    = (snd st ++ made)%list
    /\ filter is_insert made = []
    /\ List.length (filter is_list_query made) <= 1
    /\ forall p, In (EvEventsList p) made ->
                 calendarId p = "primary" /\ singleEvents p = true
                 /\ orderBy p = "startTime".
Proof.
  assert (Hquiet : forall made,
             (made = [] \/ exists creds, made = [EvBuild "calendar" "v3" creds false]) ->
             filter is_insert made = []
             /\ List.length (filter is_list_query made) <= 1
             /\ forall p, In (EvEventsList p) made ->
                          calendarId p = "primary" /\ singleEvents p = true
                          /\ orderBy p = "startTime").
  { intros made [->|[creds ->]]; simpl; (split; [reflexivity|split; [lia|]]).
    - intros p [].
    - intros p [H|[]]. discriminate. }
  rewrite ServerProps.list_upcoming_events_trace, ServerProps.query_events_run.
  destruct st as [w tr]. simpl.
  destruct (get_context E w) as [[ctx|e] w1]; simpl.
  2:{ exists []. rewrite app_nil_r. split; [reflexivity|]. apply Hquiet. now left. }
  pose proof (ServerProps.service_trace E cfg auth_provider ctx (w1, tr))
    as (made & Htr & Hshape).
  simpl in Htr.
  destruct (get_calendar_service E cfg auth_provider ctx (w1, tr))
    as [[service|e] [w2 tr2]]; simpl in *.
  2:{ exists made. split; [assumption|]. now apply Hquiet. }
  destruct (session_id ctx) as [sid|e]; simpl.
  2:{ exists made. split; [assumption|]. now apply Hquiet. }
  eexists (made ++ [_])%list. rewrite Htr, <- app_assoc.
  split; [reflexivity|].
  destruct (Hquiet made Hshape) as (Hins & Hlist & Hprim).
  assert (Hnolist : filter is_list_query made = [])
    by (destruct Hshape as [->|[creds ->]]; reflexivity).
  rewrite !filter_app, Hins, Hnolist. simpl.
  split; [reflexivity|split; [lia|]].
  intros p Hin. apply in_app_or in Hin. destruct Hin as [Hin|[Hin|[]]].
  - now apply Hprim.
  - inversion Hin; subst. repeat split.
Qed.

Lemma format_events_stops (E : Externals) (d : list (string * pyval))
      (before after : list pyval) :
  forall acc,
    forallb is_event before = true ->
    lookup "start" d = None ->
    format_events E (before ++ VDict d :: after) acc
    = Raise (Exn KeyError "'start'").
Proof.
  induction before as [|event rest IH]; intros acc Hbefore Hstart; simpl.
  - unfold event_line, subscript. now rewrite Hstart.
  - simpl in Hbefore. apply andb_true_iff in Hbefore.
    destruct Hbefore as [Hev Hrest].
    rewrite (ServerProps.event_line_spec E event Hev). simpl.
    now apply IH.
Qed.

(** X8: one event without a [start] entry spoils the whole listing: the
    lines of the events before it are dropped and the answer is the error
    text of the missing key. *)
Theorem event_without_start_spoils_listing (E : Externals) (cfg : Config)
        (auth_provider : pyval) (arguments r d : list (string * pyval))
        (before after : list pyval) (st st' : St E) :
  query_events E cfg auth_provider arguments st = (Ok (VDict r), st') ->
  lookup "items" r = Some (VList (before ++ VDict d :: after)) ->
  forallb is_event before = true ->
  lookup "start" d = None ->
  ListUpcomingEvents_run E cfg auth_provider arguments st
  = (Ok (text_result "Google Calendar API Error: 'start'"), st').
Proof.
  intros Hq Hitems Hbefore Hstart.
  unfold ListUpcomingEvents_run. run_m. rewrite Hq.
  assert (Hr : render_events E (VDict r) = Raise (Exn KeyError "'start'")).
  { unfold render_events, method_get, dict_get. rewrite Hitems.
    cbn [and_then].
    replace (truthy (VList (before ++ VDict d :: after))) with true
      by (destruct before; reflexivity).
    cbn [negb iterate and_then].
    now rewrite (format_events_stops E d before after _ Hbefore Hstart). }
  rewrite Hr. reflexivity.
Qed.

Lemma event_without_start_spoils_listing_witness :
  ListUpcomingEvents_run Scenario.spoiled_server Scenario.sample_config
    Scenario.sample_provider [] (tt, [])
  = (Ok (text_result "Google Calendar API Error: 'start'"),
     (tt, [EvBuild "calendar" "v3"
                   (request_credentials Scenario.sample_config
                      Scenario.sample_provider Scenario.signed_in) false;
           EvEventsList {| calendarId := "primary";
                           timeMin := VStr "2026-01-05T10:00:00Z";
                           maxResults := VInt 10;
                           singleEvents := true;
                           orderBy := "startTime" |}])).
Proof.
  refine (event_without_start_spoils_listing Scenario.spoiled_server
            Scenario.sample_config Scenario.sample_provider []
            Scenario.spoiled_answer [("summary", VStr "Floating")]
            [VDict [("summary", VStr "Standup");
                    ("start", VDict [("dateTime", VStr "2026-01-05T09:00:00Z")])]]
            [VDict [("start", VDict [("date", VStr "2026-01-06")])]]
            (tt, []) _ eq_refl eq_refl eq_refl eq_refl).
Defined.

(** create_event, step by step. *)
Lemma create_event_run (E : Externals) (cfg : Config) (auth_provider : pyval)
      (arguments : list (string * pyval)) (st : St E) :
  CreateEvent_run E cfg auth_provider arguments st
  = match get_context E (fst st) with
    | (Raise e, w1) =>
        if is_Exception e
        then CreateEvent_handler E None e (w1, snd st)
        else (Raise e, (w1, snd st))
    | (Ok ctx, w1) =>
        match get_calendar_service E cfg auth_provider ctx (w1, snd st) with
        | (Raise e, st2) =>
            if is_Exception e
            then CreateEvent_handler E (Some ctx) e st2
            else (Raise e, st2)
        | (Ok service, st2) =>
            let body := event_body_of arguments in
            let answer := events_insert_execute E service "primary" body (fst st2) in
            let st3 := (snd answer, (snd st2 ++ [EvEventsInsert "primary" body])%list) in
            match fst answer with
            | Raise e =>
                if is_Exception e
                then CreateEvent_handler E (Some ctx) e st3
                else (Raise e, st3)
            | Ok created =>
                match method_get created "htmlLink" VNone with
                | Ok link =>
                    (Ok (text_result ("Event created successfully. Link: "
                                        ++ py_str (runtime E) link)), st3)
                | Raise e => CreateEvent_handler E (Some ctx) e st3
                end
            end
        end
    end.
Proof.
  unfold CreateEvent_run, event_body_of, dict_get. run_m.
  destruct st as [w tr]. simpl.
  destruct (get_context E w) as [[ctx|e] w1]; simpl; rewrite app_nil_r;
    [|reflexivity].
  destruct (get_calendar_service E cfg auth_provider ctx (w1, tr))
    as [[service|e] [w2 tr2]]; simpl; [|reflexivity].
  destruct (events_insert_execute E service "primary" _ w2) as [[created|e] w3];
    simpl; [|reflexivity].
  destruct (method_get created "htmlLink" VNone) as [link|e] eqn:Hlink;
    simpl; [reflexivity|].
  assert (He : is_Exception e = true).
  { unfold method_get in Hlink. destruct created; inversion Hlink; reflexivity. }
  now rewrite He.
Qed.


(** X6: when the context is there, the service is built and the API
    answers an insert with a mapping, create_event sends exactly the body
    made of its arguments (a missing summary, start or end is [None], a
    missing description the empty text, both times tagged UTC) to the
    primary calendar and answers "Event created successfully. Link: "
    followed by the [htmlLink] of the answer, "None" when it has none. *)
Theorem create_event_success (E : Externals) (cfg : Config)
        (auth_provider : pyval) (arguments r : list (string * pyval))
        (st st2 : St E) (ctx : Context) (w1 w3 : World E) (service : Service E) :
  get_context E (fst st) = (Ok ctx, w1) ->
  get_calendar_service E cfg auth_provider ctx (w1, snd st) = (Ok service, st2) ->
  events_insert_execute E service "primary" (event_body_of arguments) (fst st2)
  = (Ok (VDict r), w3) ->
  CreateEvent_run E cfg auth_provider arguments st
  = (Ok (text_result
           ("Event created successfully. Link: "
              ++ py_str (runtime E)
                        (match lookup "htmlLink" r with
                         | Some link => link
                         | None => VNone
                         end))),
     (w3, (snd st2 ++ [EvEventsInsert "primary" (event_body_of arguments)])%list)).
Proof.
  intros Hctx Hsvc Hins.
  rewrite create_event_run, Hctx, Hsvc. cbv zeta. rewrite Hins. reflexivity.
Qed.

Lemma create_event_success_witness :
  CreateEvent_run Scenario.working_server Scenario.sample_config
    Scenario.sample_provider [("summary", VStr "Review")] (tt, [])
  = (Ok (text_result
           "Event created successfully. Link: https://calendar.example/event/1"),
     (tt, [EvBuild "calendar" "v3"
                   (request_credentials Scenario.sample_config
                      Scenario.sample_provider Scenario.signed_in) false;
           EvEventsInsert "primary"
             (VDict [("summary", VStr "Review");
                     ("description", VStr "");
                     ("start", VDict [("dateTime", VNone);
                                      ("timeZone", VStr "UTC")]);
                     ("end", VDict [("dateTime", VNone);
                                    ("timeZone", VStr "UTC")])])])).
Proof.
  refine (create_event_success Scenario.working_server Scenario.sample_config
            Scenario.sample_provider [("summary", VStr "Review")]
            [("htmlLink", VStr "https://calendar.example/event/1")]
            (tt, []) _ Scenario.signed_in tt tt _ eq_refl eq_refl eq_refl).
Defined.



(** X9: create_event only writes: in any run it sends at most one insert,
    to the primary calendar and with the body made of its arguments, and
    never a list query. *)
Theorem create_event_only_inserts (E : Externals) (cfg : Config)
        (auth_provider : pyval) (arguments : list (string * pyval)) (st : St E) :
  exists made,
    snd (snd (CreateEvent_run E cfg auth_provider arguments st))
    = (snd st ++ made)%list
    /\ filter is_list_query made = []
    /\ List.length (filter is_insert made) <= 1
    /\ forall calendar body,
        In (EvEventsInsert calendar body) made ->
        calendar = "primary" /\ body = event_body_of arguments.
Proof.
  assert (Hhandler : forall c e s, snd (CreateEvent_handler E c e s) = s).
  { intros c e s. unfold CreateEvent_handler, local. run_m.
    destruct c as [c|]; [|reflexivity].
    destruct (session_id c); reflexivity. }
  assert (Hquiet : forall made,
             (made = [] \/ exists creds, made = [EvBuild "calendar" "v3" creds false]) ->
             filter is_list_query made = [] /\ filter is_insert made = []
             /\ forall calendar body, ~ In (EvEventsInsert calendar body) made).
  { intros made [->|[creds ->]]; simpl; repeat split; auto.
    intros calendar body [H|[]]. discriminate. }
  rewrite create_event_run. destruct st as [w tr]. simpl.
  destruct (get_context E w) as [[ctx|e] w1].
  2:{ exists []. rewrite app_nil_r. split.
      - destruct (is_Exception e); [now rewrite Hhandler|reflexivity].
      - simpl. split; [reflexivity|split; [lia|]].
        intros calendar body []. }
  pose proof (ServerProps.service_trace E cfg auth_provider ctx (w1, tr))
    as (made & Htr & Hshape).
  simpl in Htr. destruct (Hquiet made Hshape) as (Hl & Hi & Hno).
  destruct (get_calendar_service E cfg auth_provider ctx (w1, tr))
    as [[service|e] [w2 tr2]]; simpl in Htr.
  2:{ exists made. split.
      - destruct (is_Exception e); [rewrite Hhandler|]; exact Htr.
      - rewrite Hi. simpl. split; [assumption|split; [lia|]].
        intros calendar body Hin. exfalso. exact (Hno calendar body Hin). }
  cbv zeta. simpl fst. simpl snd.
  exists (made ++ [EvEventsInsert "primary" (event_body_of arguments)])%list.
  split.
  { rewrite app_assoc, <- Htr.
    destruct (fst (events_insert_execute E service "primary" _ w2)) as [created|e].
    - destruct (method_get created "htmlLink" VNone);
        [reflexivity|now rewrite Hhandler].
    - destruct (is_Exception e); [now rewrite Hhandler|reflexivity]. }
  rewrite !filter_app, Hl, Hi. simpl.
  split; [reflexivity|split; [lia|]].
  intros calendar body Hin. apply in_app_or in Hin.
  destruct Hin as [Hin|[Hin|[]]].
  - exfalso. exact (Hno calendar body Hin).
  - inversion Hin; subst. split; reflexivity.
Qed.

(** *** The default lower time bound *)

Lemma replace_utc_suffix (body : string) :
  plus_free body = true ->
  replace "+00:00" "Z" (body ++ "+00:00") = body ++ "Z".
Proof.
  unfold replace, plus_free.
  induction body as [|c body IH]; intros Hfree.
  - reflexivity.
  - simpl in Hfree. apply andb_true_iff in Hfree. destruct Hfree as [Hc Hrest].
    apply negb_true_iff in Hc. rewrite Ascii.eqb_sym in Hc.
    change ((String c body ++ "+00:00")%string)
      with (String c (body ++ "+00:00")).
    cbn [replace_from]. cbn [startswith]. rewrite Hc. cbn [andb].
    now rewrite (IH Hrest).
Qed.

(** X10: when no time_min is given (or an empty one) and the clock reads
    an ISO time ending in the offset "+00:00", the lower time bound sent to
    the API is that time with the offset replaced by "Z". *)
Theorem default_lower_bound_ends_in_Z (E : Externals) (cfg : Config)
        (auth_provider : pyval) (arguments : list (string * pyval))
        (st st2 : St E) (ctx : Context) (w1 w3 : World E) (service : Service E)
        (body sid : string) :
  get_context E (fst st) = (Ok ctx, w1) ->
  get_calendar_service E cfg auth_provider ctx (w1, snd st) = (Ok service, st2) ->
  utcnow_isoformat E (fst st2) = ((body ++ "+00:00")%string, w3) ->
  plus_free body = true ->
  session_id ctx = Ok sid ->
  truthy (dict_get arguments "time_min" VNone) = false ->
  snd (snd (ListUpcomingEvents_run E cfg auth_provider arguments st))
  = (snd st2
       ++ [EvEventsList {| calendarId := "primary";
                           timeMin := VStr (body ++ "Z");
                           maxResults := dict_get arguments "max_results" (VInt 10);
                           singleEvents := true;
                           orderBy := "startTime" |}])%list.
Proof.
  intros Hctx Hsvc Hclock Hfree Hsid Hmin.
  rewrite ServerProps.list_upcoming_events_trace, ServerProps.query_events_run.
  rewrite Hctx, Hsvc. cbv zeta. rewrite Hclock, Hsid. simpl.
  unfold lower_time_bound, result_limit, dict_get in *.
  rewrite (replace_utc_suffix body Hfree).
  destruct (lookup "time_min" arguments) as [t|]; [rewrite Hmin|]; reflexivity.
Qed.

Lemma default_lower_bound_ends_in_Z_witness :
  snd (snd (ListUpcomingEvents_run Scenario.working_server Scenario.sample_config
              Scenario.sample_provider [("time_min", VNone)] (tt, [])))
  = [EvBuild "calendar" "v3"
             (request_credentials Scenario.sample_config
                Scenario.sample_provider Scenario.signed_in) false;
     EvEventsList {| calendarId := "primary";
                     timeMin := VStr "2026-01-05T10:00:00Z";
                     maxResults := VInt 10;
                     singleEvents := true;
                     orderBy := "startTime" |}].
Proof.
  refine (default_lower_bound_ends_in_Z Scenario.working_server
            Scenario.sample_config Scenario.sample_provider [("time_min", VNone)]
            (tt, []) _ Scenario.signed_in tt tt _ "2026-01-05T10:00:00" "session-1"
            eq_refl eq_refl eq_refl eq_refl eq_refl eq_refl).
Defined.

(** *** The configuration *)

(** X11: a configuration that loads holds what the environment says: the
    two Google credentials and the OpenAI key are the values set there and
    are not empty, every other setting is the value set there or its
    default (0.0.0.0, 8000, http://localhost:8000, localhost, 6379, 0 on
    the server, http://localhost:8000/sse on the client). *)
Theorem loaded_configuration_reflects_environment (rt : Runtime) (env : environ) :
  (forall cfg,
      Server.load_config rt env = Ok cfg ->
      lookup "GOOGLE_CLIENT_ID" env = Some (GOOGLE_CLIENT_ID cfg)
      /\ GOOGLE_CLIENT_ID cfg <> ""
      /\ lookup "GOOGLE_CLIENT_SECRET" env = Some (GOOGLE_CLIENT_SECRET cfg)
      /\ GOOGLE_CLIENT_SECRET cfg <> ""
      /\ HOST cfg = match lookup "HOST" env with Some v => v | None => "0.0.0.0" end
      /\ py_int rt (match lookup "PORT" env with Some v => v | None => "8000" end)
         = Ok (PORT cfg)
      /\ SERVER_URL cfg = match lookup "SERVER_URL" env with
                          | Some v => v
                          | None => "http://localhost:8000"
                          end
      /\ REDIS_HOST cfg = match lookup "REDIS_HOST" env with
                          | Some v => v
                          | None => "localhost"
                          end
      /\ py_int rt (match lookup "REDIS_PORT" env with Some v => v | None => "6379" end)
         = Ok (REDIS_PORT cfg)
      /\ py_int rt (match lookup "REDIS_DB" env with Some v => v | None => "0" end)
         = Ok (REDIS_DB cfg))
  /\ (forall c,
        Client.load_config env = Ok c ->
        lookup "OPENAI_API_KEY" env = Some (Client.OPENAI_API_KEY c)
        /\ Client.OPENAI_API_KEY c <> ""
        /\ Client.MCP_SERVER_URL c
           = match lookup "MCP_SERVER_URL" env with
             | Some v => v
             | None => "http://localhost:8000/sse"
             end).
Proof.
  split.
  - intros cfg. unfold Server.load_config, environ_get_default, environ_get, py_all.
    destruct (py_int rt match lookup "PORT" env with Some s => s | None => "8000" end)
      as [port|e]; [|discriminate].
    destruct (py_int rt match lookup "REDIS_PORT" env with Some s => s | None => "6379" end)
      as [rport|e]; [|discriminate].
    destruct (py_int rt match lookup "REDIS_DB" env with Some s => s | None => "0" end)
      as [rdb|e]; [|discriminate].
    destruct (lookup "GOOGLE_CLIENT_ID" env) as [cid|]; simpl; [|discriminate].
    destruct (String.eqb cid "") eqn:Hcid; simpl; [discriminate|].
    destruct (lookup "GOOGLE_CLIENT_SECRET" env) as [sec|]; simpl; [|discriminate].
    destruct (String.eqb sec "") eqn:Hsec; simpl; [discriminate|].
    intros H. inversion H; subst; clear H. simpl.
    apply String.eqb_neq in Hcid. apply String.eqb_neq in Hsec.
    repeat split; auto.
  - intros c. unfold Client.load_config, environ_get_default, environ_get.
    destruct (lookup "OPENAI_API_KEY" env) as [key|]; simpl; [|discriminate].
    destruct (String.eqb key "") eqn:Hkey; simpl; [discriminate|].
    intros H. inversion H; subst; clear H. simpl.
    apply String.eqb_neq in Hkey. repeat split; auto.
Qed.

End ServerExtra.

(** ** Further properties of client.py *)

Module ClientExtra.

Import Client ClientSpec.

(** *** Tool conversion *)

(** X12: the names read back from the converted tools, as line 65 shows
    them, are the names of the MCP tools, in order; reading them never
    fails. *)
Theorem discovered_names_are_tool_names (mcp_tools : list MCPTool) :
  discovered_names (convert_mcp_to_openai_tools mcp_tools)
  = Ok (map (fun tool => VStr (name tool)) mcp_tools).
Proof.
  rewrite ClientProps.convert_is_map.
  induction mcp_tools as [|tool rest IH]; simpl.
  - reflexivity.
  - rewrite IH. reflexivity.
Qed.

(** *** Relations every step keeps *)

Section Stepwise.

Variable E : Externals.
Variable R : St E -> St E -> Prop.
Hypothesis R_refl : forall st, R st st.
Hypothesis R_trans : forall a b c, R a b -> R b c -> R a c.

Lemma respects_ret {A : Type} (a : A) : respects E R (ret E a).
Proof. intros st r st' H. inversion H; subst. apply R_refl. Qed.

Lemma respects_raise {A : Type} (e : exn) : respects E R (@raise E A e).
Proof. intros st r st' H. inversion H; subst. apply R_refl. Qed.

Lemma respects_lift {A : Type} (x : result A) : respects E R (lift E x).
Proof. intros st r st' H. inversion H; subst. apply R_refl. Qed.

Lemma respects_get : respects E R (get_messages E).
Proof. intros st r st' H. inversion H; subst. apply R_refl. Qed.

Lemma respects_bind {A B : Type} (m : M E A) (k : A -> M E B) :
  respects E R m -> (forall x, respects E R (k x)) -> respects E R (bind E m k).
Proof.
  intros Hm Hk st r st' Hrun. unfold bind in Hrun.
  destruct (m st) as [[[x|e] st1]|] eqn:Hmst; [| |discriminate].
  - exact (R_trans _ _ _ (Hm _ _ _ Hmst) (Hk x _ _ _ Hrun)).
  - inversion Hrun; subst. exact (Hm _ _ _ Hmst).
Qed.

Lemma respects_try_except {A : Type} (catches : exn -> bool) (m : M E A)
      (h : exn -> M E A) :
  respects E R m -> (forall e, respects E R (h e)) ->
  respects E R (try_except E catches m h).
Proof.
  intros Hm Hh st r st' Hrun. unfold try_except in Hrun.
  destruct (m st) as [[[x|e] st1]|] eqn:Hmst; [| |discriminate].
  - inversion Hrun; subst. exact (Hm _ _ _ Hmst).
  - destruct (catches e).
    + exact (R_trans _ _ _ (Hm _ _ _ Hmst) (Hh e _ _ _ Hrun)).
    + inversion Hrun; subst. exact (Hm _ _ _ Hmst).
Qed.

Lemma respects_async_with {X A : Type} (enter : M E X) (exit : X -> M E unit)
      (body : X -> M E A) :
  respects E R enter -> (forall x, respects E R (body x)) ->
  (forall x, respects E R (exit x)) ->
  respects E R (async_with E enter exit body).
Proof.
  intros He Hb Hx st r st' Hrun. unfold async_with in Hrun.
  destruct (enter st) as [[[x|e] st1]|] eqn:Hent; [| |discriminate].
  - destruct (body x st1) as [[outcome st2]|] eqn:Hbody; [|discriminate].
    destruct (exit x st2) as [[[u|e'] st3]|] eqn:Hexit; [| |discriminate];
      inversion Hrun; subst;
      exact (R_trans _ _ _ (He _ _ _ Hent)
               (R_trans _ _ _ (Hb _ _ _ _ Hbody) (Hx _ _ _ _ Hexit))).
  - inversion Hrun; subst. exact (He _ _ _ Hent).
Qed.

(** What the relation has to allow for the steps of a turn. *)
Hypothesis R_append : forall m, respects E R (append_message E m).
Hypothesis R_turn_call :
  forall (A : Type) ev (f : World E -> result A * World E),
    turn_event ev = true -> respects E R (external E ev f).

Ltac respects_step :=
  match goal with
  | |- respects _ _ (ret _ _) => apply respects_ret
  | |- respects _ _ (raise _ _) => apply respects_raise
  | |- respects _ _ (lift _ _) => apply respects_lift
  | |- respects _ _ (get_messages _) => apply respects_get
  | |- respects _ _ (append_message _ _) => apply R_append
  | |- respects _ _ (external _ _ _) => apply R_turn_call; reflexivity
  | |- respects _ _ (bind _ _ _) => apply respects_bind; [|intros ?]
  | |- respects _ _ (try_except _ _ _ _) => apply respects_try_except; [|intros ?]
  | |- respects _ _ (if ?b then _ else _) => destruct b
  | |- respects _ _ (match ?x with _ => _ end) => destruct x
  end.

Lemma execute_tool_calls_respects (mcp_client : McpClient E)
      (calls : list ToolCall) :
  respects E R (execute_tool_calls E mcp_client calls).
Proof.
  induction calls as [|tool_call rest IH]; simpl.
  - apply respects_ret.
  - unfold run_tool. repeat respects_step. exact IH.
Qed.

Lemma chat_turn_respects (mcp_client : McpClient E) (openai_tools : list pyval) :
  respects E R (chat_turn E mcp_client openai_tools).
Proof.
  unfold chat_turn, completion.
  repeat (respects_step || apply execute_tool_calls_respects).
Qed.

Lemma chat_loop_respects (mcp_client : McpClient E) (openai_tools : list pyval)
      (fuel : nat) :
  respects E R (chat_loop E mcp_client openai_tools fuel).
Proof.
  induction fuel as [|n IH]; simpl.
  - intros st r st' H. discriminate.
  - apply respects_bind; [apply chat_turn_respects|].
    intros next. destruct next; [exact IH|apply respects_ret].
Qed.

End Stepwise.

Lemma extends_messages_refl (E : Externals) (st : St E) : extends_messages E st st.
Proof. exists []. now rewrite app_nil_r. Qed.

Lemma extends_messages_trans (E : Externals) (a b c : St E) :
  extends_messages E a b -> extends_messages E b c -> extends_messages E a c.
Proof.
  intros [x Hx] [y Hy]. exists (x ++ y)%list. now rewrite Hy, Hx, app_assoc.
Qed.

Lemma adds_events_refl (E : Externals) (allowed : event -> bool) (st : St E) :
  adds_events E allowed st st.
Proof. exists []. now rewrite app_nil_r. Qed.

Lemma adds_events_trans (E : Externals) (allowed : event -> bool) (a b c : St E) :
  adds_events E allowed a b -> adds_events E allowed b c ->
  adds_events E allowed a c.
Proof.
  intros (x & Hx & Hax) (y & Hy & Hay). exists (x ++ y)%list.
  rewrite Hy, Hx, app_assoc, forallb_app, Hax, Hay. now split.
Qed.

Lemma adds_events_external (E : Externals) (allowed : event -> bool) {A : Type}
      (ev : event) (f : World E -> result A * World E) :
  allowed ev = true -> respects E (adds_events E allowed) (external E ev f).
Proof.
  intros Hev st r st' H. unfold external in H.
  destruct (f (world E st)) as [x w]. inversion H; subst.
  exists [ev]. simpl. now rewrite Hev.
Qed.

Lemma adds_events_append (E : Externals) (allowed : event -> bool) (m : message) :
  respects E (adds_events E allowed) (append_message E m).
Proof.
  intros st r st' H. inversion H; subst. exists []. simpl.
  now rewrite app_nil_r.
Qed.

(** X13: a chat loop that comes to an end has only added to the
    conversation: every message that was there before is still there, in
    place, whatever failed on the way. *)
Theorem chat_loop_only_appends (E : Externals) (mcp_client : McpClient E)
        (openai_tools : list pyval) (fuel : nat) (st st' : St E)
        (r : result unit) :
  chat_loop E mcp_client openai_tools fuel st = Some (r, st') ->
  exists added, messages E st' = (messages E st ++ added)%list.
Proof.
  apply (chat_loop_respects E (extends_messages E)
           (extends_messages_refl E) (extends_messages_trans E)).
  - intros m s r0 s' H. inversion H; subst. exists [m]. reflexivity.
  - intros A ev f _ s r0 s' H. unfold external in H.
    destruct (f (world E s)) as [x w]. inversion H; subst.
    exists []. simpl. now rewrite app_nil_r.
Qed.

Lemma chat_loop_only_appends_witness :
  exists added,
    messages Scenario.asking_client
      (Scenario.state_of Scenario.asking_client 2 Scenario.asked_messages
         Scenario.asked_trace)
    = (messages Scenario.asking_client (Scenario.fresh Scenario.asking_client 0)
         ++ added)%list.
Proof.
  apply (chat_loop_only_appends Scenario.asking_client tt Scenario.sample_tools 2
           (Scenario.fresh Scenario.asking_client 0)
           (Scenario.state_of Scenario.asking_client 2 Scenario.asked_messages
              Scenario.asked_trace)
           (Ok tt)).
  reflexivity.
Defined.

(** X14: a chat loop only prompts, asks for completions and calls tools:
    it starts no connection, opens or closes no store and touches no
    directory. *)
Theorem chat_loop_only_talks (E : Externals) (mcp_client : McpClient E)
        (openai_tools : list pyval) (fuel : nat) (st st' : St E)
        (r : result unit) :
  chat_loop E mcp_client openai_tools fuel st = Some (r, st') ->
  exists made,
    trace E st' = (trace E st ++ made)%list
    /\ forall ev, In ev made ->
                  match ev with
                  | EvInput | EvCompletion _ _ _ _ | EvCallTool _ _ => True
                  | _ => False
                  end.
Proof.
  intros Hrun.
  destruct (chat_loop_respects E (adds_events E turn_event)
              (adds_events_refl E turn_event) (adds_events_trans E turn_event)
              (adds_events_append E turn_event)
              (fun A ev f => adds_events_external E turn_event ev f)
              mcp_client openai_tools fuel st r st' Hrun)
    as (made & Htr & Hall).
  exists made. split; [assumption|].
  intros ev Hin. rewrite forallb_forall in Hall. specialize (Hall ev Hin).
  destruct ev; try discriminate; exact I.
Qed.

Lemma chat_loop_only_talks_witness :
  exists made,
    trace Scenario.asking_client
      (Scenario.state_of Scenario.asking_client 2 Scenario.asked_messages
         Scenario.asked_trace)
    = (trace Scenario.asking_client (Scenario.fresh Scenario.asking_client 0)
         ++ made)%list
    /\ forall ev, In ev made ->
                  match ev with
                  | EvInput | EvCompletion _ _ _ _ | EvCallTool _ _ => True
                  | _ => False
                  end.
Proof.
  apply (chat_loop_only_talks Scenario.asking_client tt Scenario.sample_tools 2
           (Scenario.fresh Scenario.asking_client 0)
           (Scenario.state_of Scenario.asking_client 2 Scenario.asked_messages
              Scenario.asked_trace)
           (Ok tt)).
  reflexivity.
Defined.

(** *** The ways through a turn *)

Section Turns.

Variable E : Externals.
Variable mcp_client : McpClient E.
Variable openai_tools : list pyval.

(** X15: in a turn whose completion requests no tool (its tool calls are
    [None] or an empty list), the client appends the user message and the
    received message as it is, asks for no second completion and calls no
    tool. *)
Theorem chat_turn_without_tool_calls (st : St E) (user_input : string)
        (w1 w2 : World E) (response_msg : ChatCompletionMessage)
        (others : list ChatCompletionMessage) :
  input E (newline ++ "User: ") (world E st) = (Ok user_input, w1) ->
  is_quit user_input = false ->
  chat_completions_create E "gpt-4o"
    (messages E st ++ [user_message user_input])%list
    (Some openai_tools) (Some "auto") w1
  = (Ok (response_msg :: others), w2) ->
  tool_calls response_msg = None \/ tool_calls response_msg = Some [] ->
  chat_turn E mcp_client openai_tools st
  = Some (Ok Continue,
          {| world := w2;
             messages := (messages E st
                            ++ [user_message user_input; Received response_msg])%list;
             trace := (trace E st
                         ++ [EvInput;
                             EvCompletion "gpt-4o"
                               (messages E st ++ [user_message user_input])
                               (Some openai_tools) (Some "auto")])%list |}).
Proof.
  intros Hin Hquit Hfirst Hcalls.
  assert (Hreq : requested_calls response_msg = []).
  { unfold requested_calls. destruct Hcalls as [-> | ->]; reflexivity. }
  unfold chat_turn, try_except.
  unfold bind at 1. unfold external at 1. rewrite Hin. cbv beta iota.
  rewrite Hquit.
  unfold bind at 1. unfold append_message at 1. cbv beta iota.
  unfold bind at 1. unfold completion at 1.
  unfold bind at 1. unfold get_messages at 1. cbv beta iota.
  unfold external at 1. cbn [world messages trace].
  rewrite Hfirst. cbv beta iota.
  unfold bind at 1. unfold lift at 1. cbn [first_choice].
  rewrite Hreq.
  unfold bind, append_message, ret. cbn [world messages trace].
  rewrite <- !app_assoc. reflexivity.
Qed.

(** X16: when the first completion of a turn fails with an Exception, the
    loop goes on, and the user message that was appended before the request
    stays in the conversation. *)
Theorem chat_turn_failed_completion (st : St E) (user_input : string)
        (w1 w2 : World E) (e : exn) :
  input E (newline ++ "User: ") (world E st) = (Ok user_input, w1) ->
  is_quit user_input = false ->
  chat_completions_create E "gpt-4o"
    (messages E st ++ [user_message user_input])%list
    (Some openai_tools) (Some "auto") w1
  = (Raise e, w2) ->
  is_Exception e = true ->
  chat_turn E mcp_client openai_tools st
  = Some (Ok Continue,
          {| world := w2;
             messages := (messages E st ++ [user_message user_input])%list;
             trace := (trace E st
                         ++ [EvInput;
                             EvCompletion "gpt-4o"
                               (messages E st ++ [user_message user_input])
                               (Some openai_tools) (Some "auto")])%list |}).
Proof.
  intros Hin Hquit Hfirst He.
  assert (Hki : is_KeyboardInterrupt e = false).
  { unfold is_Exception in He. unfold is_KeyboardInterrupt.
    destruct (exn_type e); try reflexivity; discriminate. }
  unfold chat_turn, try_except.
  unfold bind at 1. unfold external at 1. rewrite Hin. cbv beta iota.
  rewrite Hquit.
  unfold bind at 1. unfold append_message at 1. cbv beta iota.
  unfold bind at 1. unfold completion at 1.
  unfold bind at 1. unfold get_messages at 1. cbv beta iota.
  unfold external at 1. cbn [world messages trace].
  rewrite Hfirst. cbv beta iota. rewrite He, Hki, orb_true_r.
  unfold ret. rewrite <- !app_assoc. reflexivity.
Qed.

(** X17: a user who answers the prompt with "quit" or "exit", in any
    letter case, ends the chat loop at once: nothing is appended to the
    conversation and no completion is requested. *)
Theorem chat_loop_quits (fuel : nat) (st : St E) (user_input : string)
        (w1 : World E) :
  input E (newline ++ "User: ") (world E st) = (Ok user_input, w1) ->
  lower user_input = "quit" \/ lower user_input = "exit" ->
  chat_loop E mcp_client openai_tools (S fuel) st
  = Some (Ok tt,
          {| world := w1;
             messages := messages E st;
             trace := (trace E st ++ [EvInput])%list |}).
Proof.
  intros Hin Hword.
  assert (Hquit : is_quit user_input = true).
  { unfold is_quit. destruct Hword as [-> | ->]; reflexivity. }
  cbn [chat_loop]. unfold bind at 1. unfold chat_turn, try_except.
  unfold bind at 1. unfold external at 1. rewrite Hin. cbv beta iota.
  rewrite Hquit. reflexivity.
Qed.

(** X18: no ordinary error leaves the chat loop: what it raises is neither
    an Exception nor a KeyboardInterrupt, so a ClientNotFoundError raised
    while chatting never reaches the retry handler. *)
Theorem chat_loop_raises_no_exception (fuel : nat) (st st' : St E) (e : exn) :
  chat_loop E mcp_client openai_tools fuel st = Some (Raise e, st') ->
  is_Exception e = false
  /\ is_KeyboardInterrupt e = false
  /\ is_ClientNotFoundError e = false.
Proof.
  revert st. induction fuel as [|n IH]; intros st; simpl.
  - discriminate.
  - unfold bind.
    destruct (chat_turn E mcp_client openai_tools st) as [[[next|e0] s]|] eqn:Hturn;
      try discriminate.
    + destruct next; [apply IH|discriminate].
    + intros H. inversion H; subst.
      pose proof (ClientProps.chat_turn_catches E mcp_client openai_tools
                    st st' e Hturn) as Hc.
      apply orb_false_iff in Hc. destruct Hc as [Hki Hex].
      repeat split; try assumption.
      unfold is_Exception in Hex. unfold is_ClientNotFoundError.
      destruct (exn_type e); try reflexivity; discriminate.
Qed.

End Turns.

Lemma chat_turn_without_tool_calls_witness :
  chat_turn Scenario.plain_client tt Scenario.sample_tools
    (Scenario.fresh Scenario.plain_client 0)
  = Some (Ok Continue,
          Scenario.state_of Scenario.plain_client 1
            [user_message "What is planned today?";
             Received {| content := VStr "Let me look."; tool_calls := Some [] |}]
            [EvInput;
             EvCompletion "gpt-4o" [user_message "What is planned today?"]
               (Some Scenario.sample_tools) (Some "auto")]).
Proof.
  refine (chat_turn_without_tool_calls Scenario.plain_client tt
            Scenario.sample_tools (Scenario.fresh Scenario.plain_client 0)
            "What is planned today?" 1 1
            {| content := VStr "Let me look."; tool_calls := Some [] |} []
            eq_refl eq_refl eq_refl (or_intror eq_refl)).
Defined.

Lemma chat_turn_failed_completion_witness :
  chat_turn Scenario.offline_client tt Scenario.sample_tools
    (Scenario.fresh Scenario.offline_client 0)
  = Some (Ok Continue,
          Scenario.state_of Scenario.offline_client 1
            [user_message "What is planned today?"]
            [EvInput;
             EvCompletion "gpt-4o" [user_message "What is planned today?"]
               (Some Scenario.sample_tools) (Some "auto")]).
Proof.
  refine (chat_turn_failed_completion Scenario.offline_client tt
            Scenario.sample_tools (Scenario.fresh Scenario.offline_client 0)
            "What is planned today?" 1 1
            (Exn (OtherException "APIConnectionError") "Connection error.")
            eq_refl eq_refl eq_refl eq_refl).
Defined.

Lemma chat_loop_quits_witness :
  chat_loop Scenario.asking_client tt Scenario.sample_tools 1
    (Scenario.state_of Scenario.asking_client 1 Scenario.asked_messages [])
  = Some (Ok tt,
          Scenario.state_of Scenario.asking_client 2 Scenario.asked_messages
            [EvInput]).
Proof.
  refine (chat_loop_quits Scenario.asking_client tt Scenario.sample_tools 0
            (Scenario.state_of Scenario.asking_client 1 Scenario.asked_messages [])
            "quit" 2 eq_refl (or_introl eq_refl)).
Defined.

Lemma chat_loop_raises_no_exception_witness :
  is_Exception (Exn (OtherBaseException "CancelledError") "") = false
  /\ is_KeyboardInterrupt (Exn (OtherBaseException "CancelledError") "") = false
  /\ is_ClientNotFoundError (Exn (OtherBaseException "CancelledError") "") = false.
Proof.
  refine (chat_loop_raises_no_exception Scenario.cancelled_client tt
            Scenario.sample_tools 1 (Scenario.fresh Scenario.cancelled_client 0)
            (Scenario.state_of Scenario.cancelled_client 1
               [user_message "What is planned today?";
                Received {| content := VStr "Let me look.";
                            tool_calls := Some [Scenario.list_call] |}]
               [EvInput;
                EvCompletion "gpt-4o" [user_message "What is planned today?"]
                  (Some Scenario.sample_tools) (Some "auto");
                EvCallTool "list_upcoming_events" (VDict [])])
            _ eq_refl).
Defined.

(** *** Sessions and attempts *)

Section SessionSteps.

Variable E : Externals.
Variable R : St E -> St E -> Prop.
Hypothesis R_refl : forall st, R st st.
Hypothesis R_trans : forall a b c, R a b -> R b c -> R a c.
Hypothesis R_append : forall m, respects E R (append_message E m).
Hypothesis R_reset : respects E R (reset_messages E).
Hypothesis R_body_call :
  forall (A : Type) ev (f : World E -> result A * World E),
    body_event ev = true -> respects E R (external E ev f).

Lemma session_body_respects (mcp_client : McpClient E) (fuel : nat) :
  respects E R
    (bind E (external E EvListTools (list_tools E mcp_client))
       (fun mcp_tools =>
          bind E (reset_messages E)
            (fun _ =>
               bind E (chat_loop E mcp_client
                         (convert_mcp_to_openai_tools mcp_tools) fuel)
                 (fun _ => ret E Return)))).
Proof.
  apply (respects_bind E R R_trans); [now apply R_body_call|].
  intros mcp_tools.
  apply (respects_bind E R R_trans); [exact R_reset|].
  intros _.
  apply (respects_bind E R R_trans).
  - apply (chat_loop_respects E R R_refl R_trans R_append).
    intros A ev f Hev. apply R_body_call.
    destruct ev; try discriminate; reflexivity.
  - intros _. apply (respects_ret E R R_refl).
Qed.

End SessionSteps.

Section Sessions.

Variable E : Externals.
Variable cfg : Config.

Lemma adds_events_reset (allowed : event -> bool) :
  respects E (adds_events E allowed) (reset_messages E).
Proof.
  intros st r st' H. inversion H; subst. exists []. simpl.
  now rewrite app_nil_r.
Qed.

Lemma session_body_trace (allowed : event -> bool) (mcp_client : McpClient E)
      (fuel : nat) :
  (forall ev, body_event ev = true -> allowed ev = true) ->
  respects E (adds_events E allowed)
    (bind E (external E EvListTools (list_tools E mcp_client))
       (fun mcp_tools =>
          bind E (reset_messages E)
            (fun _ =>
               bind E (chat_loop E mcp_client
                         (convert_mcp_to_openai_tools mcp_tools) fuel)
                 (fun _ => ret E Return)))).
Proof.
  intros Hallowed.
  apply (session_body_respects E (adds_events E allowed)
           (adds_events_refl E allowed) (adds_events_trans E allowed)
           (adds_events_append E allowed) (adds_events_reset allowed)).
  intros A ev f Hev. apply adds_events_external. now apply Hallowed.
Qed.

(** The trace of a session, whatever way it ends. *)
Lemma session_trace (fuel : nat) (disk_store : DiskStore E) (st st' : St E)
      (r : result flow) :
  session E cfg fuel disk_store st = Some (r, st') ->
  let url := MCP_SERVER_URL cfg in
  let entered := store_enter E disk_store (world E st) in
  match fst entered with
  | Raise _ => trace E st' = (trace E st ++ [EvStoreEnter])%list
  | Ok _ =>
      match fst (client_enter E url disk_store (snd entered)) with
      | Raise _ =>
          trace E st'
          = (trace E st ++ [EvStoreEnter; EvClientEnter url; EvStoreExit])%list
      | Ok _ =>
          exists mid,
            trace E st'
            = (trace E st ++ [EvStoreEnter; EvClientEnter url]
                 ++ mid ++ [EvClientExit; EvStoreExit])%list
            /\ forallb body_event mid = true
      end
  end.
Proof.
  intros Hrun url entered. subst entered url.
  unfold session in Hrun. unfold async_with at 1 in Hrun.
  unfold external at 1 in Hrun.
  destruct (store_enter E disk_store (world E st)) as [[u|e] w1];
    cbn [fst snd] in *.
  2:{ inversion Hrun; subst. reflexivity. }
  unfold async_with at 1 in Hrun. unfold external at 1 in Hrun.
  cbn [world messages trace] in Hrun.
  destruct (client_enter E (MCP_SERVER_URL cfg) disk_store w1)
    as [[mcp_client|e] w2]; cbn [fst snd] in *.
  2:{ unfold external in Hrun. cbn [world messages trace] in Hrun.
      destruct (store_exit E disk_store w2) as [[u1|e1] w3];
        inversion Hrun; subst; cbn [trace]; now rewrite <- !app_assoc. }
  match type of Hrun with
  | context [match ?body ?s with _ => _ end] =>
      destruct (body s) as [[outcome st2]|] eqn:Hbody
  end; [|discriminate].
  pose proof (session_body_trace body_event mcp_client fuel (fun ev H => H)
                _ _ _ Hbody) as (mid & Hmid & Hall).
  cbn [trace] in Hmid.
  unfold external in Hrun.
  destruct (client_exit E mcp_client (world E st2)) as [[u1|e1] w3];
    cbn [world messages trace] in Hrun;
    destruct (store_exit E disk_store w3) as [[u2|e2] w4];
    inversion Hrun; subst; cbn [trace]; exists mid;
    (split; [|assumption]); rewrite Hmid, <- !app_assoc; reflexivity.
Qed.

(** X19: a session that comes to an end has closed what it opened,
    whatever happened in between: the store is left exactly once, last of
    all, when it was entered, and the client is left exactly once, just
    before, when it was entered; in between only tools are listed and
    turns are run. *)
Theorem session_closes_what_it_opened (fuel : nat) (disk_store : DiskStore E)
        (st st' : St E) (r : result flow) :
  session E cfg fuel disk_store st = Some (r, st') ->
  match fst (store_enter E disk_store (world E st)) with
  | Raise _ => trace E st' = (trace E st ++ [EvStoreEnter])%list
  | Ok _ =>
      match fst (client_enter E (MCP_SERVER_URL cfg) disk_store
                   (snd (store_enter E disk_store (world E st)))) with
      | Raise _ =>
          trace E st'
          = (trace E st
               ++ [EvStoreEnter; EvClientEnter (MCP_SERVER_URL cfg); EvStoreExit])%list
      | Ok _ =>
          exists mid,
            trace E st'
            = (trace E st ++ [EvStoreEnter; EvClientEnter (MCP_SERVER_URL cfg)]
                 ++ mid ++ [EvClientExit; EvStoreExit])%list
            /\ forall ev, In ev mid ->
                          match ev with
                          | EvListTools | EvInput | EvCompletion _ _ _ _
                          | EvCallTool _ _ => True
                          | _ => False
                          end
      end
  end.
Proof.
  intros Hrun. pose proof (session_trace fuel disk_store st st' r Hrun) as H.
  cbv zeta in H.
  destruct (fst (store_enter E disk_store (world E st))); [|exact H].
  destruct (fst (client_enter E (MCP_SERVER_URL cfg) disk_store
                   (snd (store_enter E disk_store (world E st)))));
    [|exact H].
  destruct H as (mid & Htr & Hall). exists mid. split; [exact Htr|].
  intros ev Hin. rewrite forallb_forall in Hall. specialize (Hall ev Hin).
  destruct ev; try discriminate; exact I.
Qed.

Lemma body_event_keeps_storage (mid : list event) :
  forallb body_event mid = true -> forallb keeps_storage mid = true.
Proof.
  intros H. rewrite forallb_forall in *. intros ev Hin.
  specialize (H ev Hin). destruct ev; try discriminate; reflexivity.
Qed.

Lemma session_keeps_storage (fuel : nat) (disk_store : DiskStore E)
      (st st' : St E) (r : result flow) :
  session E cfg fuel disk_store st = Some (r, st') ->
  adds_events E keeps_storage st st'.
Proof.
  intros Hrun. pose proof (session_trace fuel disk_store st st' r Hrun) as H.
  cbv zeta in H.
  destruct (fst (store_enter E disk_store (world E st))).
  - destruct (fst (client_enter E (MCP_SERVER_URL cfg) disk_store
                     (snd (store_enter E disk_store (world E st))))).
    + destruct H as (mid & Htr & Hall).
      eexists. split; [exact Htr|].
      rewrite !forallb_app, (body_event_keeps_storage mid Hall). reflexivity.
    + eexists. split; [exact H|reflexivity].
  - eexists. split; [exact H|reflexivity].
Qed.

Lemma attempt_keeps_storage (fuel : nat) (storage_dir : path) (st s1 : St E) :
  (connection_sequence E cfg fuel storage_dir st = Finished E s1
   \/ exists e, connection_sequence E cfg fuel storage_dir st = Failed E e s1) ->
  adds_events E keeps_storage st s1.
Proof.
  unfold connection_sequence, external.
  destruct (DiskStore_init E storage_dir (world E st)) as [[disk_store|e0] w0].
  - destruct (session E cfg fuel disk_store _) as [[[f|e1] s2]|] eqn:Hs.
    + intros [H|[e H]]; inversion H; subst.
      destruct (session_keeps_storage _ _ _ _ _ Hs) as (made & Htr & Hall).
      cbn [trace] in Htr.
      exists (EvDiskStore storage_dir :: made).
      rewrite Htr, <- app_assoc. split; [reflexivity|]. simpl. exact Hall.
    + destruct (is_ClientNotFoundError e1);
        intros [H|[e H]]; inversion H; subst.
      destruct (session_keeps_storage _ _ _ _ _ Hs) as (made & Htr & Hall).
      cbn [trace] in Htr.
      exists (EvDiskStore storage_dir :: made).
      rewrite Htr, <- app_assoc. split; [reflexivity|]. simpl. exact Hall.
    + intros [H|[e H]]; discriminate.
  - intros [H|[e H]]; inversion H; subst.
    exists [EvDiskStore storage_dir]. split; reflexivity.
Qed.

(** X20: the storage directory is deleted only after a rejection: in a run
    whose first connection attempt does not end in a ClientNotFoundError
    from the [try] block, no directory is removed, whatever else fails. *)
Theorem storage_is_kept_without_rejection (fuel : nat) (profile : string)
        (st st' : St E) (r : result unit) :
  run_chat_loop E cfg fuel profile st = Some (r, st') ->
  (forall e s1,
      connection_sequence E cfg fuel [".client_storage"; profile]
        (started E [".client_storage"; profile] st)
      <> Rejected E e s1) ->
  exists made,
    trace E st' = (trace E st ++ made)%list
    /\ forall dir, ~ In (EvRmtree dir) made.
Proof.
  intros Hrun Hnot.
  rewrite ClientProps.run_chat_loop_run in Hrun. cbv zeta in Hrun.
  assert (Hkept : adds_events E keeps_storage
                    (started E [".client_storage"; profile] st) st').
  { apply (attempt_keeps_storage fuel [".client_storage"; profile]).
    destruct (connection_sequence E cfg fuel [".client_storage"; profile]
                (started E [".client_storage"; profile] st))
      as [|s1|e1 s1|e1 s1] eqn:Hfirst.
    - discriminate.
    - inversion Hrun; subst. now left.
    - inversion Hrun; subst. right. now exists e1.
    - exfalso. exact (Hnot e1 s1 eq_refl). }
  destruct Hkept as (made & Htr & Hall). cbn [started trace] in Htr.
  exists (EvMkdir [".client_storage"; profile] :: made).
  rewrite Htr, <- app_assoc. split; [reflexivity|].
  intros dir [Hin|Hin]; [discriminate|].
  rewrite forallb_forall in Hall. specialize (Hall _ Hin). discriminate.
Qed.

End Sessions.

Lemma session_closes_what_it_opened_witness :
  exists mid,
    [EvStoreEnter; EvClientEnter default_server_url; EvListTools; EvInput;
     EvClientExit; EvStoreExit]
    = ([] ++ [EvStoreEnter; EvClientEnter default_server_url]
          ++ mid ++ [EvClientExit; EvStoreExit])%list
    /\ forall ev, In ev mid ->
                  match ev with
                  | EvListTools | EvInput | EvCompletion _ _ _ _
                  | EvCallTool _ _ => True
                  | _ => False
                  end.
Proof.
  exact (session_closes_what_it_opened Scenario.quitting_client
           Scenario.client_config 1 tt
           (Scenario.fresh Scenario.quitting_client 0)
           (Scenario.state_of Scenario.quitting_client 1 []
              [EvStoreEnter; EvClientEnter default_server_url; EvListTools;
               EvInput; EvClientExit; EvStoreExit])
           (Ok Return) eq_refl).
Defined.

Lemma storage_is_kept_without_rejection_witness :
  exists made,
    [EvMkdir [".client_storage"; "default"];
     EvDiskStore [".client_storage"; "default"]; EvStoreEnter;
     EvClientEnter default_server_url; EvStoreExit]
    = ([] ++ made)%list
    /\ forall dir, ~ In (EvRmtree dir) made.
Proof.
  refine (storage_is_kept_without_rejection Scenario.unreachable_client
            Scenario.client_config 1 "default"
            (Scenario.fresh Scenario.unreachable_client 0)
            (Scenario.state_of Scenario.unreachable_client 1 []
               [EvMkdir [".client_storage"; "default"];
                EvDiskStore [".client_storage"; "default"]; EvStoreEnter;
                EvClientEnter default_server_url; EvStoreExit])
            (Raise (Exn (OtherException "ConnectError")
                        "All connection attempts failed"))
            eq_refl _).
  intros e s1 H. discriminate H.
Defined.

End ClientExtra.
